(* ===== verification/_CoqProject ===== *)
-Q . S2P
Prelude.v
UsbDef.v
Descriptor.v
CdcAcm.v
System.v
Session.v
LowLevel.v
Startup.v
Traces.v
Pump.v
