(* ===== verification/Prelude.v ===== *)
(** * Verification of the CDC-ACM virtual serial port of KiConShenZhen2023

    The program is [src/fw/src/setup/usb.c]: the device side of a USB
    CDC-ACM serial port on an N32L40x microcontroller, written against the
    CherryUSB device stack.  Its parts, and how they interact:
    - the descriptor table [cdc_descriptor] (lines 9-105), registered with
      the stack, which answers GET_DESCRIPTOR requests from it;
    - the globals [read_buffer], [write_buffer], [ep_tx_busy_flag],
      [dtr_enable] (lines 107-110, 197);
    - the handlers the stack calls back: [usbd_event_handler] on bus events
      (arms the first OUT read on CONFIGURED), [usbd_cdc_acm_bulk_out] on
      OUT completion (re-arms the read), [usbd_cdc_acm_bulk_in] on IN
      completion (zero-length packet after a full-packet transfer, else
      clears the busy flag), [usbd_cdc_acm_set_dtr] on the class request;
    - the application entry [cdc_acm_data_send_with_dtr_test], which sets
      the busy flag, starts a 2048-byte write and spins until the IN
      completion interrupt clears the flag;
    - [cdc_acm_init] (buffer fill and registrations) and the bring-up
      [usb_dc_low_level_init] / [USB_NVIC_Config] (lines 218-294).

    Files, in dependency order:
    - [Prelude.v] (this file): [uint8]/[uint32] wrap-around on [Z], byte
      arrays as [list Z], little-endian 16-bit reads, C [memcpy]/[memset]
      with undefined behaviour as [None], the [usb] hint databases, the
      decidability of divisibility, the [by_eval] tactic.
    - [UsbDef.v]: the CherryUSB definitions [usb.c] expands (descriptor
      codes, [WBVAL], the descriptor initialiser macros, the event
      enumeration).  The stack is not in [src/]; these follow the USB 2.0 and
      CDC 1.10 layouts (marked spec_modelled in the manifest).
    - [Descriptor.v]: [Module Table] is the table, for both values of the
      build flag [CONFIG_USB_HS] (the boolean [hs]); [Module Lookup] is the
      stack's [usbd_get_descriptor]: its checks on the requested type
      before the walk ([desc_type_rejected]: MS OS string and BOS, which
      [usb.c] does not register, INTERFACE, ENDPOINT and types beyond the
      build's highest) and the walk of the table with fuel one step per
      byte ([desc_walk_total] shows it is enough); [Module Parse] splits
      the table into descriptors and decodes string descriptors.
      Theorems: the lookup never reads past the array for any request; a
      request is stalled exactly when the stack rejects its type or the
      table holds no descriptor of that type at that index, in particular
      every OTHER_SPEED_CONFIGURATION request in both builds; the layout,
      [wTotalLength] and string descriptors are consistent; the HS device
      qualifier announces a class different from the device descriptor.
    - [CdcAcm.v]: the globals as a [Record], the handlers as functions of
      the globals and of the stack's state, written against the stack
      interface [UsbdApi] (a [Class]: start read/write, registrations), so
      that their theorems hold for every stack; [cdc_acm_init] fills the
      2048-byte buffer in bounds and registers the endpoints in order; the
      registered endpoints agree with the table (direction, callback,
      packet size); the send function is one
      step per C statement ([send_step], lines 210-213) so that interrupts
      can run between statements.  [trace_api] is a stack that logs calls.
      The packet size of the ZLP rule is the second [CDC_MAX_MPS]
      definition (lines 112-116, [CDC_MAX_MPS_handler]); a theorem shows it
      equals the [wMaxPacketSize] the table declares for [CDC_IN_EP].
    - [System.v]: [Module Stack] is the stack's endpoint state (armed OUT
      read, in-flight IN write, call log; a bus reset drops pending
      transfers without callbacks), an instance of [UsbdApi]; [Module Loop]
      is the interrupt-driven system as a step relation [sys_step] (one bus
      event, OUT or IN completion, DTR request, or application statement per
      step, in any order).  Theorems: the invariant [sys_inv] of every
      reachable state (rule induction over [rtc]); no write is started while
      one is in flight; OUT completions always re-arm 2048 bytes; a send
      finishes after at most two IN completions; a bus reset during a send
      hangs the application forever; two OUT completions in a row write
      both packets at the start of [read_buffer], the second over the
      first.
    - [Session.v]: the session state machine of the specification (states
      Reset ... Configured, remote wakeup, DTR) and the refinement theorem
      that the stateless code issues the same commands and keeps the same
      DTR state for every event sequence.
    - [LowLevel.v]: the 32-bit register at [0x40001824] and its macros
      with [Z.land]/[Z.lor]/[Z.lnot] and [Z.testbit], the [uint32_t] delay
      loop, and the ordered trace of vendor-library calls (its order is a
      theorem of [Startup.v]).  Vendor constants
      (IRQ priority, RCC masks) are not in [src/]: they are Section
      variables, so the theorems hold for every value.
    - [Startup.v]: [cdc_acm_init] on a stack [boot_api] whose
      [usbd_initialize] runs the board hook [usb_dc_low_level_init], as
      CherryUSB's [usb_dc_init] does, with one ordered log of both.
      Theorem: every registration precedes the first write of the D+
      pull-up, and the USB clock is enabled only after it.
    - [Traces.v]: properties of whole event sequences of the loop, from a
      shared case analysis of one step ([sys_step_cases]) and a lemma that
      a predicate every allowed step preserves holds after a run.  The
      call log of every reachable state is the six calls of
      [cdc_acm_init] followed by transfer requests only (each endpoint is
      registered once, before any transfer); the OUT read stays armed with
      2048 bytes through every event sequence without a bus reset; after a
      reset nothing is armed, and no OUT data is received, until the next
      CONFIGURED.
    - [Pump.v]: the transmit contract of the specification (section 4.4)
      as a labelled transition system [pump_step] (take the flag, submit
      the payload, zero-length packet, release; a bus reset loses the
      transfer) and an abstraction [pump_abs] of the loop's state.
      Theorems: every step of the loop from a reachable state stutters
      (never on an IN completion) or is one contract step labelled by its
      event (a forward simulation in the style of a stuttering diagram),
      and a send in flight finishes
      after its two IN completions whatever OUT completions, DTR requests
      and bus events other than a reset interleave with it.

    Bounds and fuel: [desc_walk] and [split_descs] get [S (length d)] fuel,
    enough because each step advances by [bLength >= 1]; [delay_loop] gets
    [S t] fuel for start value [t], enough by [delay_loop_terminates]; byte
    counts are [uint32_t] ([u32]) and buffer sizes 2048.

    Plan, in order: (1) the pump and send loop with their interleavings
    and the invariant (done); (2) the descriptor table and the stack's
    lookup (done); (3) the session refinement (done); (4) the bring-up
    registers (done, vendor constants symbolic); (5) the error paths:
    stalled descriptor requests and the other-speed request (done); (6) the OUT-data overwrite and the
    composed start-up order (done); (7) the call-log invariant and the
    OUT endpoint's availability across event sequences (done); (8) the
    refinement of the transmit contract and the robustness of a send
    against interleaved interrupts (done).

    Not modelled: every function, global and macro of [usb.c] is
    modelled; what is left of the file are the [#include]s, comments and
    the logging ([USB_LOG_RAW], pure output with no effect on state).  The
    rest of what the program runs is outside [src/]: the CherryUSB protocol
    engine (SETUP handling, FIFOs; of [usbd_get_descriptor] the type
    checks and the walk are modelled, and the MS OS and BOS branches as
    the stalls they are without registered descriptors), the contents of
    [usbd_cdc_acm_init_intf] and its class requests, and the n32l40x
    vendor library, whose calls appear only as trace entries with
    symbolic constants.  The stack interface and the bring-up are
    therefore only partly modelled: they are modelled as far as [usb.c]
    depends on them.  A send with a timeout (section 9 of the
    specification) is not in the code and is not modelled. *)

From stdpp Require Export base list relations decidable.
From Stdlib Require Export ZArith Lia.

Open Scope Z_scope.

(** ** Notation scope of the development *)

Declare Scope usb_scope.
Delimit Scope usb_scope with usb.

(** ** Machine-width integers, kept as [Z] with their wrap-around *)

(** Conversion of a C integer to [uint8_t] / [uint16_t] / [uint32_t]. *)
Definition u8 (z : Z) : Z := z mod 2 ^ 8.
Definition u16 (z : Z) : Z := z mod 2 ^ 16.
Definition u32 (z : Z) : Z := z mod 2 ^ 32.

(** Range predicates, as booleans so that they compute. *)
Definition is_u8 (z : Z) : bool := (0 <=? z) && (z <? 2 ^ 8).
Definition is_u16 (z : Z) : bool := (0 <=? z) && (z <? 2 ^ 16).
Definition is_u32 (z : Z) : bool := (0 <=? z) && (z <? 2 ^ 32).

Notation "'uint8'" := (fun z : Z => 0 <= z < 2 ^ 8) (at level 0) : usb_scope.

(** A byte array as the list of its [uint8_t] values. *)
Abbreviation bytes := (list Z).

Definition all_u8 (b : bytes) : bool := forallb is_u8 b.

(** Little-endian 16-bit field stored at index [i] of a byte array. *)
Definition rd16 (b : bytes) (i : nat) : option Z :=
  match b !! i, b !! S i with
  | Some lo, Some hi => Some (lo + 256 * hi)
  | _, _ => None
  end.

(** ** C memory operations on a fixed-size array

    [memcpy]/[memset] on [dst + off]: writing past the end of the array is
    undefined behaviour in C, modelled as [None]. *)
Definition c_memcpy (dst : bytes) (off : nat) (src : bytes) : option bytes :=
  if decide (off + length src <= length dst)%nat
  then Some (take off dst ++ src ++ drop (off + length src) dst)
  else None.

Definition c_memset (dst : bytes) (off : nat) (v : Z) (n : nat) : option bytes :=
  c_memcpy dst off (replicate n (u8 v)).

(** Divisibility on [Z] decided through [mod], so that it computes. *)
#[export] Instance Z_divide_dec (a b : Z) : Decision (a | b).
Proof.
  destruct (decide (a = 0)) as [->|Ha].
  - destruct (decide (b = 0)) as [->|Hb].
    + left. apply Z.divide_0_r.
    + right. intros H. apply Z.divide_0_l in H. done.
  - destruct (decide (b mod a = 0)) as [Hm|Hm].
    + left. by apply Z.mod_divide.
    + right. by rewrite <- Z.mod_divide.
Defined.

(** ** Generic lemmas *)

Create HintDb usb discriminated.
Create Rewrite HintDb usb_rw.

Lemma is_u8_spec z : is_u8 z = true <-> 0 <= z < 2 ^ 8.
Proof. unfold is_u8. rewrite andb_true_iff, Z.leb_le, Z.ltb_lt. lia. Qed.

Lemma is_u16_spec z : is_u16 z = true <-> 0 <= z < 2 ^ 16.
Proof. unfold is_u16. rewrite andb_true_iff, Z.leb_le, Z.ltb_lt. lia. Qed.

Lemma all_u8_spec b : all_u8 b = true <-> Forall (fun z => 0 <= z < 2 ^ 8) b.
Proof.
  unfold all_u8. rewrite forallb_forall, Forall_forall.
  split; intros H x Hx; apply is_u8_spec; auto.
Qed.

Lemma all_u8_app b1 b2 : all_u8 (b1 ++ b2) = all_u8 b1 && all_u8 b2.
Proof. apply forallb_app. Qed.

Lemma u8_range z : 0 <= u8 z < 2 ^ 8.
Proof. apply Z.mod_pos_bound. lia. Qed.

Lemma u8_id z : 0 <= z < 2 ^ 8 -> u8 z = z.
Proof. intros. by apply Z.mod_small. Qed.

Lemma u32_range z : 0 <= u32 z < 2 ^ 32.
Proof. apply Z.mod_pos_bound. lia. Qed.

Lemma u32_id z : 0 <= z < 2 ^ 32 -> u32 z = z.
Proof. intros. by apply Z.mod_small. Qed.

Lemma rd16_app_l b1 b2 i :
  (S i < length b1)%nat -> rd16 (b1 ++ b2) i = rd16 b1 i.
Proof.
  intros H. unfold rd16.
  rewrite !lookup_app_l by lia. done.
Qed.

Lemma rd16_app_r b1 b2 i :
  rd16 (b1 ++ b2) (length b1 + i) = rd16 b2 i.
Proof.
  unfold rd16. rewrite lookup_app_r by lia.
  replace (S (length b1 + i)) with (length b1 + S i)%nat by lia.
  rewrite lookup_app_r by lia.
  by rewrite !Nat.add_sub_swap, Nat.sub_diag by lia.
Qed.

Lemma c_memcpy_ok dst off src :
  (off + length src <= length dst)%nat ->
  c_memcpy dst off src = Some (take off dst ++ src ++ drop (off + length src) dst).
Proof. intros H. unfold c_memcpy. by rewrite decide_True. Qed.

Lemma c_memcpy_length dst off src dst' :
  c_memcpy dst off src = Some dst' -> length dst' = length dst.
Proof.
  unfold c_memcpy. case_decide; intros; simplify_eq.
  rewrite !length_app, length_take, length_drop. lia.
Qed.

#[export] Hint Resolve u8_range u32_range c_memcpy_length : usb.
#[export] Hint Rewrite all_u8_app rd16_app_r : usb_rw.

(** Close a goal that holds by evaluating the definitions. *)
Ltac by_eval := vm_compute; reflexivity.
