(* ===== verification/UsbDef.v ===== *)
(** * Definitions of the USB device stack that [src/fw/src/setup/usb.c] uses

    The firmware includes [usbd_core.h] and [usbd_cdc.h] of the CherryUSB
    stack, which is not part of [src/].  This file models the pieces that
    [usb.c] expands: descriptor-type codes, the [WBVAL] little-endian split,
    the descriptor initialiser macros ([USB_DEVICE_DESCRIPTOR_INIT],
    [USB_CONFIG_DESCRIPTOR_INIT], [CDC_ACM_DESCRIPTOR_INIT],
    [USB_LANGID_INIT]) as byte-list builders, and the event codes delivered
    to [usbd_event_handler].  They follow the USB 2.0 / CDC 1.10 layouts
    that the stack implements. *)

From S2P Require Import Prelude.
From Stdlib Require Import Ascii.
From Stdlib Require String.
Import ListNotations.

Open Scope Z_scope.

(** ** Descriptor type codes (USB 2.0, table 9-5) *)
Definition USB_DESCRIPTOR_TYPE_DEVICE : Z := 0x01.
Definition USB_DESCRIPTOR_TYPE_CONFIGURATION : Z := 0x02.
Definition USB_DESCRIPTOR_TYPE_STRING : Z := 0x03.
Definition USB_DESCRIPTOR_TYPE_INTERFACE : Z := 0x04.
Definition USB_DESCRIPTOR_TYPE_ENDPOINT : Z := 0x05.
Definition USB_DESCRIPTOR_TYPE_DEVICE_QUALIFIER : Z := 0x06.
Definition USB_DESCRIPTOR_TYPE_OTHER_SPEED : Z := 0x07.
Definition USB_DESCRIPTOR_TYPE_INTERFACE_ASSOCIATION : Z := 0x0B.
Definition USB_DESCRIPTOR_TYPE_BINARY_OBJECT_STORE : Z := 0x0F.

(** The string index of the MS OS 1.0 string descriptor. *)
Definition USB_OSDESC_STRING_DESC_INDEX : Z := 0xEE.

(** ** Class codes used by the CDC-ACM function *)
Definition USB_DEVICE_CLASS_CDC : Z := 0x02.
Definition CDC_ABSTRACT_CONTROL_MODEL : Z := 0x02.
Definition CDC_COMMON_PROTOCOL_NONE : Z := 0x00.
Definition CDC_COMMON_PROTOCOL_AT_COMMANDS : Z := 0x01.
Definition CDC_DATA_INTERFACE_CLASS : Z := 0x0A.
Definition CDC_CS_INTERFACE : Z := 0x24.
Definition CDC_FUNC_DESC_HEADER : Z := 0x00.
Definition CDC_FUNC_DESC_CALL_MANAGEMENT : Z := 0x01.
Definition CDC_FUNC_DESC_ABSTRACT_CONTROL_MANAGEMENT : Z := 0x02.
Definition CDC_FUNC_DESC_UNION : Z := 0x06.
Definition CDC_V1_10 : Z := 0x0110.

Definition USB_2_0 : Z := 0x0200.
Definition USB_CONFIG_BUS_POWERED : Z := 0x80.
Definition USB_STRING_MFC_INDEX : Z := 0x01.
Definition USB_STRING_PRODUCT_INDEX : Z := 0x02.
Definition USB_STRING_SERIAL_INDEX : Z := 0x03.

(** [USB_CONFIG_POWER_MA(mA)]: the field counts units of 2 mA (C integer
    division). *)
Definition USB_CONFIG_POWER_MA (mA : Z) : Z := Z.quot mA 2.

(** [WBVAL(x)]: [(x & 0xFF), ((x >> 8) & 0xFF)]. *)
Definition WBVAL (x : Z) : bytes := [Z.land x 0xFF; Z.land (Z.shiftr x 8) 0xFF].

(** ** Descriptor initialiser macros *)

Definition USB_DEVICE_DESCRIPTOR_INIT (bcdUSB bDeviceClass bDeviceSubClass
    bDeviceProtocol idVendor idProduct bcdDevice bNumConfigurations : Z) : bytes :=
  [0x12; USB_DESCRIPTOR_TYPE_DEVICE] ++ WBVAL bcdUSB ++
  [bDeviceClass; bDeviceSubClass; bDeviceProtocol; 0x40] ++
  WBVAL idVendor ++ WBVAL idProduct ++ WBVAL bcdDevice ++
  [USB_STRING_MFC_INDEX; USB_STRING_PRODUCT_INDEX; USB_STRING_SERIAL_INDEX;
   bNumConfigurations].

Definition USB_CONFIG_DESCRIPTOR_INIT (wTotalLength bNumInterfaces
    bConfigurationValue bmAttributes bMaxPower : Z) : bytes :=
  [0x09; USB_DESCRIPTOR_TYPE_CONFIGURATION] ++ WBVAL wTotalLength ++
  [bNumInterfaces; bConfigurationValue; 0x00; bmAttributes;
   USB_CONFIG_POWER_MA bMaxPower].

(** Length of the block [CDC_ACM_DESCRIPTOR_INIT] expands to. *)
Definition CDC_ACM_DESCRIPTOR_LEN : Z := 8 + 9 + 5 + 5 + 4 + 5 + 7 + 9 + 7 + 7.

Definition CDC_ACM_DESCRIPTOR_INIT (bFirstInterface int_ep out_ep in_ep
    wMaxPacketSize str_idx : Z) : bytes :=
  (* interface association *)
  [0x08; USB_DESCRIPTOR_TYPE_INTERFACE_ASSOCIATION; bFirstInterface; 0x02;
   USB_DEVICE_CLASS_CDC; CDC_ABSTRACT_CONTROL_MODEL; CDC_COMMON_PROTOCOL_NONE; 0x00] ++
  (* communication-class interface *)
  [0x09; USB_DESCRIPTOR_TYPE_INTERFACE; bFirstInterface; 0x00; 0x01;
   USB_DEVICE_CLASS_CDC; CDC_ABSTRACT_CONTROL_MODEL; CDC_COMMON_PROTOCOL_AT_COMMANDS;
   str_idx] ++
  (* class-specific functional descriptors *)
  [0x05; CDC_CS_INTERFACE; CDC_FUNC_DESC_HEADER] ++ WBVAL CDC_V1_10 ++
  [0x05; CDC_CS_INTERFACE; CDC_FUNC_DESC_CALL_MANAGEMENT; 0x00; bFirstInterface + 1] ++
  [0x04; CDC_CS_INTERFACE; CDC_FUNC_DESC_ABSTRACT_CONTROL_MANAGEMENT; 0x02] ++
  [0x05; CDC_CS_INTERFACE; CDC_FUNC_DESC_UNION; bFirstInterface; bFirstInterface + 1] ++
  (* notification endpoint *)
  [0x07; USB_DESCRIPTOR_TYPE_ENDPOINT; int_ep; 0x03; 0x08; 0x00; 0x0a] ++
  (* data-class interface *)
  [0x09; USB_DESCRIPTOR_TYPE_INTERFACE; bFirstInterface + 1; 0x00; 0x02;
   CDC_DATA_INTERFACE_CLASS; 0x00; 0x00; 0x00] ++
  (* bulk OUT and bulk IN endpoints *)
  [0x07; USB_DESCRIPTOR_TYPE_ENDPOINT; out_ep; 0x02] ++ WBVAL wMaxPacketSize ++ [0x00] ++
  [0x07; USB_DESCRIPTOR_TYPE_ENDPOINT; in_ep; 0x02] ++ WBVAL wMaxPacketSize ++ [0x00].

Definition USB_LANGID_INIT (id : Z) : bytes :=
  [0x04; USB_DESCRIPTOR_TYPE_STRING] ++ WBVAL id.

(** ** Events the stack delivers to [usbd_event_handler] *)

Inductive usbd_event_type :=
| USBD_EVENT_ERROR
| USBD_EVENT_RESET
| USBD_EVENT_SOF
| USBD_EVENT_CONNECTED
| USBD_EVENT_DISCONNECTED
| USBD_EVENT_SUSPEND
| USBD_EVENT_RESUME
| USBD_EVENT_CONFIGURED
| USBD_EVENT_SET_INTERFACE
| USBD_EVENT_SET_REMOTE_WAKEUP
| USBD_EVENT_CLR_REMOTE_WAKEUP
| USBD_EVENT_INIT
| USBD_EVENT_DEINIT
| USBD_EVENT_UNKNOWN.

#[export] Instance usbd_event_type_eq_dec : EqDecision usbd_event_type.
Proof. solve_decision. Defined.

(** The enumeration values, in declaration order. *)
Definition usbd_event_code (e : usbd_event_type) : Z :=
  match e with
  | USBD_EVENT_ERROR => 0 | USBD_EVENT_RESET => 1 | USBD_EVENT_SOF => 2
  | USBD_EVENT_CONNECTED => 3 | USBD_EVENT_DISCONNECTED => 4
  | USBD_EVENT_SUSPEND => 5 | USBD_EVENT_RESUME => 6
  | USBD_EVENT_CONFIGURED => 7 | USBD_EVENT_SET_INTERFACE => 8
  | USBD_EVENT_SET_REMOTE_WAKEUP => 9 | USBD_EVENT_CLR_REMOTE_WAKEUP => 10
  | USBD_EVENT_INIT => 11 | USBD_EVENT_DEINIT => 12 | USBD_EVENT_UNKNOWN => 13
  end.

Definition all_usbd_events : list usbd_event_type :=
  [USBD_EVENT_ERROR; USBD_EVENT_RESET; USBD_EVENT_SOF; USBD_EVENT_CONNECTED;
   USBD_EVENT_DISCONNECTED; USBD_EVENT_SUSPEND; USBD_EVENT_RESUME;
   USBD_EVENT_CONFIGURED; USBD_EVENT_SET_INTERFACE; USBD_EVENT_SET_REMOTE_WAKEUP;
   USBD_EVENT_CLR_REMOTE_WAKEUP; USBD_EVENT_INIT; USBD_EVENT_DEINIT;
   USBD_EVENT_UNKNOWN].

(** Decoding of the [uint8_t event] argument: a value that names no
    enumerator falls to the [default:] branch of the switch. *)
Definition usbd_event_of_code (c : Z) : option usbd_event_type :=
  find (fun e => bool_decide (usbd_event_code e = c)) all_usbd_events.

Lemma usbd_event_of_code_code e : usbd_event_of_code (usbd_event_code e) = Some e.
Proof. destruct e; reflexivity. Qed.

Lemma usbd_event_of_code_inv c e :
  usbd_event_of_code c = Some e -> usbd_event_code e = c.
Proof.
  unfold usbd_event_of_code. intros H.
  apply find_some in H as [_ H]. by apply bool_decide_eq_true in H.
Qed.

Lemma WBVAL_u16 x : 0 <= x < 2 ^ 16 -> rd16 (WBVAL x) 0 = Some x.
Proof.
  intros Hx. unfold rd16, WBVAL. simpl. f_equal.
  rewrite Z.shiftr_div_pow2 by lia.
  change (0xFF) with (Z.ones 8).
  rewrite !Z.land_ones by lia.
  rewrite (Z.mod_small (x / 2 ^ 8)) by (split; [apply Z.div_pos | apply Z.div_lt_upper_bound]; lia).
  pose proof (Z.div_mod x (2 ^ 8)). lia.
Qed.

#[export] Hint Resolve usbd_event_of_code_code : usb.
