(* ===== verification/Descriptor.v ===== *)
(** * The descriptor table [cdc_descriptor] and the stack's lookup in it

    [Module Table] translates lines 9-105 of [usb.c]: the endpoint
    addresses, the build-time packet size [CDC_MAX_MPS] (selected by
    [CONFIG_USB_HS], here the boolean [hs]) and the [uint8_t] array
    [cdc_descriptor].  [Module Lookup] models how the stack answers a
    GET_DESCRIPTOR request from that array (the walk of
    [usbd_get_descriptor]), with its safety and termination theorems.
    [Module Parse] splits the array into descriptors and decodes the
    UTF-16LE string descriptors, so that theorems about the table's
    layout can be stated on its descriptors. *)

From S2P Require Import Prelude UsbDef.
From Stdlib Require Import Ascii.
From Stdlib Require String.
Import (notations) String.
Import ListNotations.

Open Scope Z_scope.

Module Table.

(** [/*!< endpoint address */] *)
Definition CDC_IN_EP : Z := 0x81.
Definition CDC_OUT_EP : Z := 0x02.
Definition CDC_INT_EP : Z := 0x83.

Definition USBD_VID : Z := 0xFFFF.
Definition USBD_PID : Z := 0xFFFF.
Definition USBD_MAX_POWER : Z := 100.
Definition USBD_LANGID_STRING : Z := 1033.

(** [#define USB_CONFIG_SIZE (9 + CDC_ACM_DESCRIPTOR_LEN)] *)
Definition USB_CONFIG_SIZE : Z := 9 + CDC_ACM_DESCRIPTOR_LEN.

(** [#ifdef CONFIG_USB_HS ... 512 #else 64]. *)
Definition CDC_MAX_MPS (hs : bool) : Z := if hs then 512 else 64.

(** A character literal ['C'] in a [uint8_t] initialiser. *)
Definition chr (c : ascii) : Z := Z.of_nat (nat_of_ascii c).

(** string1 descriptor (manufacturer). *)
Definition string1_descriptor : bytes :=
  [0x14; USB_DESCRIPTOR_TYPE_STRING;
   chr "C"; 0x00; chr "h"; 0x00; chr "e"; 0x00; chr "r"; 0x00; chr "r"; 0x00;
   chr "y"; 0x00; chr "U"; 0x00; chr "S"; 0x00; chr "B"; 0x00].

(** string2 descriptor (product). *)
Definition string2_descriptor : bytes :=
  [0x26; USB_DESCRIPTOR_TYPE_STRING;
   chr "C"; 0x00; chr "h"; 0x00; chr "e"; 0x00; chr "r"; 0x00; chr "r"; 0x00;
   chr "y"; 0x00; chr "U"; 0x00; chr "S"; 0x00; chr "B"; 0x00; chr " "; 0x00;
   chr "C"; 0x00; chr "D"; 0x00; chr "C"; 0x00; chr " "; 0x00; chr "D"; 0x00;
   chr "E"; 0x00; chr "M"; 0x00; chr "O"; 0x00].

(** string3 descriptor (serial number). *)
Definition string3_descriptor : bytes :=
  [0x16; USB_DESCRIPTOR_TYPE_STRING;
   chr "2"; 0x00; chr "0"; 0x00; chr "2"; 0x00; chr "2"; 0x00; chr "1"; 0x00;
   chr "2"; 0x00; chr "3"; 0x00; chr "4"; 0x00; chr "5"; 0x00; chr "6"; 0x00].

(** device qualifier descriptor, present only in the [CONFIG_USB_HS] build. *)
Definition device_qualifier_descriptor : bytes :=
  [0x0a; USB_DESCRIPTOR_TYPE_DEVICE_QUALIFIER; 0x00; 0x02; 0x02; 0x02; 0x01;
   0x40; 0x01; 0x00].

(** The initialiser list of [cdc_descriptor], before conversion of each
    element to [uint8_t]. *)
Definition cdc_descriptor_init (hs : bool) : bytes :=
  USB_DEVICE_DESCRIPTOR_INIT USB_2_0 0xEF 0x02 0x01 USBD_VID USBD_PID 0x0100 0x01 ++
  USB_CONFIG_DESCRIPTOR_INIT USB_CONFIG_SIZE 0x02 0x01 USB_CONFIG_BUS_POWERED USBD_MAX_POWER ++
  CDC_ACM_DESCRIPTOR_INIT 0x00 CDC_INT_EP CDC_OUT_EP CDC_IN_EP (CDC_MAX_MPS hs) 0x02 ++
  USB_LANGID_INIT USBD_LANGID_STRING ++
  string1_descriptor ++ string2_descriptor ++ string3_descriptor ++
  (if hs then device_qualifier_descriptor else []) ++
  [0x00].

(** [static const uint8_t cdc_descriptor[]]: every initialiser is
    converted to [uint8_t]. *)
Definition cdc_descriptor (hs : bool) : bytes := map u8 (cdc_descriptor_init hs).

End Table.

Module Lookup.
Import Table.

(** Outcome of the stack's search: the descriptor at byte offset [off]
    with the reply length [len]; no such descriptor (the request is
    stalled); or a read past the end of the array. *)
Inductive desc_result :=
| DescFound (off : nat) (len : Z)
| DescNotFound
| DescOverrun.

#[export] Instance desc_result_eq_dec : EqDecision desc_result.
Proof. solve_decision. Defined.

(** Reply length of a found descriptor: a configuration (or other-speed
    configuration) descriptor is answered with its [wTotalLength], any
    other with its [bLength]. *)
Definition found_len (d : bytes) (p : nat) (type bl : Z) : desc_result :=
  if bool_decide (type = USB_DESCRIPTOR_TYPE_CONFIGURATION \/
                  type = USB_DESCRIPTOR_TYPE_OTHER_SPEED)
  then match rd16 d (p + 2) with
       | Some w => DescFound p w
       | None => DescOverrun
       end
  else DescFound p bl.

(** The loop [while (p[DESC_bLength] != 0U) { ... p += p[DESC_bLength]; }]
    of [usbd_get_descriptor]; [None] only when the fuel runs out. *)
Fixpoint desc_walk (fuel : nat) (d : bytes) (p : nat) (type index cur : Z)
    : option desc_result :=
  match fuel with
  | O => None
  | S fuel' =>
    match d !! p with
    | None => Some DescOverrun
    | Some bl =>
      if bool_decide (bl = 0) then Some DescNotFound else
      match d !! S p with
      | None => Some DescOverrun
      | Some ty =>
        if bool_decide (ty = type) then
          if bool_decide (cur = index) then Some (found_len d p type bl)
          else desc_walk fuel' d (p + Z.to_nat bl) type index (cur + 1)
        else desc_walk fuel' d (p + Z.to_nat bl) type index cur
      end
    end
  end.

(** The checks of [usbd_get_descriptor] before the walk, on [type] and
    [index] (the [CONFIG_USB_HS] build of the stack is [hs]): the MS OS
    string (index 0xEE) and the BOS descriptor are answered from
    descriptors registered apart, and [usb.c] registers neither, so both
    fail; INTERFACE and ENDPOINT requests, and any type above ENDPOINT
    (above OTHER_SPEED in the HS build), are invalid (USB 2.0, 9.4.3). *)
Definition desc_type_rejected (hs : bool) (type index : Z) : bool :=
  bool_decide (type = USB_DESCRIPTOR_TYPE_STRING /\ index = USB_OSDESC_STRING_DESC_INDEX) ||
  bool_decide (type = USB_DESCRIPTOR_TYPE_BINARY_OBJECT_STORE) ||
  bool_decide (type = USB_DESCRIPTOR_TYPE_INTERFACE) ||
  bool_decide (type = USB_DESCRIPTOR_TYPE_ENDPOINT) ||
  bool_decide (type > if hs then USB_DESCRIPTOR_TYPE_OTHER_SPEED
                     else USB_DESCRIPTOR_TYPE_ENDPOINT).

(** GET_DESCRIPTOR with [wValue = type_index]: the high byte is the type,
    the low byte the index; a rejected request is stalled, any other is
    looked up by the walk.  One pass over the array suffices (fuel). *)
Definition usbd_get_descriptor (hs : bool) (d : bytes) (type_index : Z)
    : option desc_result :=
  let type := Z.land (Z.shiftr type_index 8) 0xFF in
  let index := Z.land type_index 0xFF in
  if desc_type_rejected hs type index then Some DescNotFound
  else desc_walk (S (length d)) d 0 type index 0.

(** Well-formedness of a descriptor array, checked along the chain the
    walk follows: every descriptor has [bLength >= 2] and fits in the
    array, a configuration descriptor's [wTotalLength] fits too, and the
    chain ends on a zero [bLength] inside the array. *)
Definition found_ok (d : bytes) (p : nat) (ty : Z) : bool :=
  if bool_decide (ty = USB_DESCRIPTOR_TYPE_CONFIGURATION \/
                  ty = USB_DESCRIPTOR_TYPE_OTHER_SPEED)
  then match rd16 d (p + 2) with
       | Some w => bool_decide (0 <= w /\ Z.of_nat p + w <= Z.of_nat (length d))
       | None => false
       end
  else true.

Fixpoint chain_ok (fuel : nat) (d : bytes) (p : nat) : bool :=
  match fuel with
  | O => false
  | S fuel' =>
    match d !! p with
    | None => false
    | Some bl =>
      if bool_decide (bl = 0) then true else
      match d !! S p with
      | None => false
      | Some ty =>
        bool_decide (2 <= bl /\ Z.of_nat p + bl <= Z.of_nat (length d)) &&
        found_ok d p ty && chain_ok fuel' d (p + Z.to_nat bl)
      end
    end
  end.

Definition table_ok (d : bytes) : bool := chain_ok (S (length d)) d 0.

(** Reference definition of the lookup: the offsets of the descriptors on
    the chain up to the terminator, and the [index]-th of those with the
    requested type. *)
Fixpoint desc_chain (fuel : nat) (d : bytes) (p : nat) : list nat :=
  match fuel with
  | O => []
  | S fuel' =>
    match d !! p with
    | Some bl => if bool_decide (bl = 0) then [] else p :: desc_chain fuel' d (p + Z.to_nat bl)
    | None => []
    end
  end.

Definition of_type (d : bytes) (type : Z) (offs : list nat) : list nat :=
  filter (fun o => d !! S o = Some type) offs.

Definition ref_lookup (d : bytes) (offs : list nat) (type : Z) (k : nat) : desc_result :=
  match of_type d type offs !! k with
  | Some o => found_len d o type (default 0 (d !! o))
  | None => DescNotFound
  end.

Definition ref_get_descriptor (d : bytes) (type_index : Z) : desc_result :=
  ref_lookup d (desc_chain (S (length d)) d 0) (Z.land (Z.shiftr type_index 8) 0xFF)
    (Z.to_nat (Z.land type_index 0xFF)).

(** A reply the stack can send: inside the array. *)
Definition reply_in_bounds (d : bytes) (r : desc_result) : Prop :=
  match r with
  | DescFound off len => 0 <= len /\ Z.of_nat off + len <= Z.of_nat (length d)
  | DescNotFound => True
  | DescOverrun => False
  end.

End Lookup.

Module Parse.
Import Table.

(** Split a descriptor array into its descriptors, following [bLength]
    up to the zero terminator; [None] on a malformed array. *)
Fixpoint split_descs (fuel : nat) (d : bytes) : option (list bytes) :=
  match fuel with
  | O => None
  | S fuel' =>
    match d with
    | [] => None
    | bl :: _ =>
      if bool_decide (bl = 0) then Some [] else
      if bool_decide (2 <= bl /\ (Z.to_nat bl <= length d)%nat) then
        match split_descs fuel' (drop (Z.to_nat bl) d) with
        | Some ds => Some (take (Z.to_nat bl) d :: ds)
        | None => None
        end
      else None
    end
  end.

Definition parse_table (d : bytes) : option (list bytes) := split_descs (S (length d)) d.

(** A descriptor whose [bLength] is its length (at least the two header
    bytes). *)
Definition desc_wf (c : bytes) : bool :=
  match c with
  | bl :: _ :: _ => bool_decide (bl = Z.of_nat (length c))
  | _ => false
  end.

Definition desc_type (c : bytes) : Z := default 0 (c !! 1%nat).

(** ** String descriptors *)

(** UTF-16LE encoding of a Basic-Latin string with the two-byte header:
    [bLength = 2 + 2 * len(text)]. *)
Definition usb_string_descriptor (s : String.string) : bytes :=
  (2 + 2 * Z.of_nat (String.length s)) :: USB_DESCRIPTOR_TYPE_STRING ::
  flat_map (fun c => [chr c; 0]) (String.list_ascii_of_string s).

Fixpoint utf16le_decode (b : bytes) : option (list ascii) :=
  match b with
  | [] => Some []
  | lo :: hi :: b' =>
    if bool_decide (hi = 0 /\ 0 <= lo < 128) then
      match utf16le_decode b' with
      | Some cs => Some (ascii_of_nat (Z.to_nat lo) :: cs)
      | None => None
      end
    else None
  | [_] => None
  end.

Definition decode_string_descriptor (c : bytes) : option String.string :=
  match c with
  | bl :: ty :: body =>
    if bool_decide (ty = USB_DESCRIPTOR_TYPE_STRING /\ bl = Z.of_nat (length c))
    then String.string_of_list_ascii <$> utf16le_decode body
    else None
  | _ => None
  end.

(** ** Structure of a configuration *)

(** Top-level descriptors end a configuration's block. *)
Definition top_level (ty : Z) : bool :=
  bool_decide (ty ∈ [USB_DESCRIPTOR_TYPE_DEVICE; USB_DESCRIPTOR_TYPE_CONFIGURATION;
                     USB_DESCRIPTOR_TYPE_STRING; USB_DESCRIPTOR_TYPE_DEVICE_QUALIFIER;
                     USB_DESCRIPTOR_TYPE_OTHER_SPEED]).

(** Bytes of the descriptors that follow, up to the next top-level one. *)
Fixpoint block_span (cs : list bytes) : Z :=
  match cs with
  | [] => 0
  | c :: cs' => if top_level (desc_type c) then 0 else Z.of_nat (length c) + block_span cs'
  end.

(** Every configuration descriptor's [wTotalLength] counts itself and the
    descriptors of its block. *)
Fixpoint config_totals_ok (cs : list bytes) : bool :=
  match cs with
  | [] => true
  | c :: cs' =>
    (if bool_decide (desc_type c = USB_DESCRIPTOR_TYPE_CONFIGURATION)
     then bool_decide (rd16 c 2 = Some (Z.of_nat (length c) + block_span cs'))
     else true) && config_totals_ok cs'
  end.

(** The endpoint descriptor with address [addr]: its [bmAttributes] and
    [wMaxPacketSize]. *)
Definition endpoint_desc (cs : list bytes) (addr : Z) : option (Z * Z) :=
  c ← find (fun c => bool_decide (desc_type c = USB_DESCRIPTOR_TYPE_ENDPOINT /\
                                  c !! 2%nat = Some addr)) cs;
  attr ← c !! 3%nat; mps ← rd16 c 4; Some (attr, mps).

(** The text of every string descriptor that decodes as text. *)
Definition text_strings (cs : list bytes) : list String.string :=
  omap decode_string_descriptor cs.

Definition count_type (ty : Z) (cs : list bytes) : nat :=
  length (filter (fun c => desc_type c = ty) cs).

Definition first_of_type (ty : Z) (cs : list bytes) : option bytes :=
  find (fun c => bool_decide (desc_type c = ty)) cs.

End Parse.

(** ** Theorems *)

Module LookupFacts.
Import Table Lookup.

Lemma found_len_in_bounds d p ty bl :
  d !! p = Some bl -> 0 <= bl /\ Z.of_nat p + bl <= Z.of_nat (length d) ->
  found_ok d p ty = true -> reply_in_bounds d (found_len d p ty bl).
Proof.
  unfold found_ok, found_len. intros _ Hbl.
  case_bool_decide; [|done].
  destruct (rd16 d (p + 2)); [|done].
  intros Hw%bool_decide_eq_true. exact Hw.
Qed.

Lemma desc_walk_step fuel d p type index cur bl ty :
  d !! p = Some bl -> bl <> 0 -> d !! S p = Some ty ->
  desc_walk (S fuel) d p type index cur =
  if bool_decide (ty = type) then
    if bool_decide (cur = index) then Some (found_len d p type bl)
    else desc_walk fuel d (p + Z.to_nat bl) type index (cur + 1)
  else desc_walk fuel d (p + Z.to_nat bl) type index cur.
Proof. intros Hp Hbl Hty. simpl. rewrite Hp, bool_decide_eq_false_2, Hty by done. done. Qed.

(** The walk, started on a well-formed chain, terminates within the
    chain's fuel and its reply is inside the array. *)
Lemma desc_walk_safe fuel d p :
  chain_ok fuel d p = true ->
  forall type index cur, exists r,
    desc_walk fuel d p type index cur = Some r /\ reply_in_bounds d r.
Proof.
  revert p. induction fuel as [|fuel IH]; intros p Hok type index cur; [done|].
  simpl in Hok. destruct (d !! p) as [bl|] eqn:Hp; [|done].
  case_bool_decide as Hz.
  { exists DescNotFound. simpl. rewrite Hp, bool_decide_eq_true_2 by done. done. }
  destruct (d !! S p) as [ty|] eqn:Hty; [|done].
  apply andb_true_iff in Hok as [[Hb Hf]%andb_true_iff Hrest].
  apply bool_decide_eq_true in Hb.
  rewrite (desc_walk_step _ _ _ _ _ _ bl ty) by done.
  repeat case_bool_decide; subst; eauto.
  eexists; split; [done|]. apply (found_len_in_bounds _ _ _ _ Hp).
  - lia.
  - done.
Qed.

(** On a well-formed chain the walk finds the [(index - cur)]-th
    descriptor of the requested type, as the reference definition does. *)
Lemma desc_walk_ref fuel d p type index cur :
  chain_ok fuel d p = true -> 0 <= cur <= index ->
  desc_walk fuel d p type index cur =
  Some (ref_lookup d (desc_chain fuel d p) type (Z.to_nat (index - cur))).
Proof.
  revert p cur. induction fuel as [|fuel IH]; intros p cur Hok Hc; [done|].
  simpl in Hok. destruct (d !! p) as [bl|] eqn:Hp; [|done].
  cbn [desc_chain]. rewrite Hp.
  case_bool_decide as Hz.
  { simpl. rewrite Hp, bool_decide_eq_true_2 by done. done. }
  destruct (d !! S p) as [ty|] eqn:Hty; [|done].
  apply andb_true_iff in Hok as [_ Hrest].
  rewrite (desc_walk_step _ _ _ _ _ _ bl ty) by done.
  unfold ref_lookup, of_type. rewrite filter_cons.
  case_bool_decide as Ht; subst.
  - rewrite decide_True by done.
    case_bool_decide as Hi; subst.
    + rewrite Z.sub_diag. simpl. by rewrite Hp.
    + rewrite IH by (done || lia).
      replace (Z.to_nat (index - cur)) with (S (Z.to_nat (index - (cur + 1)))) by lia.
      done.
  - rewrite decide_False by congruence. apply IH; [done | lia].
Qed.

(** The walk takes at most one iteration per byte: with [S (length d)]
    fuel it always returns (here on any array of [uint8_t]). *)
Lemma desc_walk_total fuel d p type index cur :
  all_u8 d = true -> (length d - p < fuel)%nat ->
  desc_walk fuel d p type index cur <> None.
Proof.
  intros Hu. revert p cur. induction fuel as [|fuel IH]; intros p cur Hf; [lia|].
  simpl. destruct (d !! p) as [bl|] eqn:Hp; [|done].
  pose proof (lookup_lt_Some _ _ _ Hp).
  case_bool_decide; [done|]. destruct (d !! S p); [|done].
  assert (0 <= bl < 2 ^ 8).
  { apply all_u8_spec in Hu. by eapply (Forall_lookup_1 _ _ _ _ Hu). }
  repeat case_bool_decide; try done; apply IH; lia.
Qed.

(** C6: For both builds and every [wValue] of a GET_DESCRIPTOR request,
    the stack's walk over [cdc_descriptor] stops (on a descriptor or on the
    zero terminator) without reading past the array, and the reply it
    returns (offset and [wTotalLength]/[bLength]) lies inside the array. *)
Theorem get_descriptor_safe hs type_index :
  exists r, usbd_get_descriptor hs (cdc_descriptor hs) type_index = Some r /\
  reply_in_bounds (cdc_descriptor hs) r.
Proof.
  unfold usbd_get_descriptor. case_match; [by eexists|].
  apply desc_walk_safe. destruct hs; by_eval.
Qed.

Lemma cdc_descriptor_table_ok hs : table_ok (cdc_descriptor hs) = true.
Proof. destruct hs; by_eval. Qed.

#[export] Hint Resolve cdc_descriptor_table_ok : usb.

Lemma found_len_not_stall d o type bl : found_len d o type bl <> DescNotFound.
Proof. unfold found_len. case_bool_decide; [destruct (rd16 d (o + 2))|]; done. Qed.

Lemma land_ff_range x : 0 <= Z.land x 0xFF < 256.
Proof.
  change 0xFF with (Z.ones 8). rewrite Z.land_ones by lia.
  apply Z.mod_pos_bound. lia.
Qed.

(** The walk from the start of a well-formed table is the reference lookup. *)
Lemma walk_ref d type index :
  table_ok d = true -> 0 <= index ->
  desc_walk (S (length d)) d 0 type index 0 =
  Some (ref_lookup d (desc_chain (S (length d)) d 0) type (Z.to_nat index)).
Proof. intros Hok Hi. rewrite desc_walk_ref by (done || lia). by rewrite Z.sub_0_r. Qed.

(** A request that passes the checks is stalled exactly when the table
    holds no more descriptors of the requested type than the index. *)
Lemma walk_stall_iff d type index :
  table_ok d = true -> 0 <= index ->
  desc_walk (S (length d)) d 0 type index 0 = Some DescNotFound <->
  (length (of_type d type (desc_chain (S (length d)) d 0)) <= Z.to_nat index)%nat.
Proof.
  intros Hok Hi. rewrite walk_ref by done. unfold ref_lookup.
  destruct (_ !! _) as [o|] eqn:E.
  - split; [intros [=H]; by apply found_len_not_stall in H|].
    intros Hle. rewrite lookup_ge_None_2 in E by done. done.
  - split; [intros _; by apply lookup_ge_None | done].
Qed.


(** C21: The [CONFIG_USB_HS] table answers the device qualifier but holds
    no other-speed configuration descriptor: every OTHER_SPEED_CONFIGURATION
    request (any index) is stalled, in both builds. *)
Theorem other_speed_request_stalls hs index :
  0 <= index < 256 ->
  usbd_get_descriptor hs (cdc_descriptor hs) (0x0700 + index) = Some DescNotFound.
Proof.
  intros Hi. unfold usbd_get_descriptor.
  replace (Z.land (Z.shiftr (0x0700 + index) 8) 0xFF) with USB_DESCRIPTOR_TYPE_OTHER_SPEED.
  2:{ rewrite Z.shiftr_div_pow2 by lia.
      replace ((0x0700 + index) / 2 ^ 8) with 7 by (apply Z.div_unique with index; lia).
      reflexivity. }
  destruct hs; [|reflexivity].
  pose proof (land_ff_range (0x0700 + index)).
  case_match; [done|]. apply walk_stall_iff; [auto with usb | lia |].
  vm_compute. lia.
Qed.

Lemma other_speed_request_stalls_witness :
  0 <= 0 < 256 /\ usbd_get_descriptor true (cdc_descriptor true) (0x0700 + 0) = Some DescNotFound.
Proof. split; [lia | apply (other_speed_request_stalls true 0); lia]. Defined.

End LookupFacts.

Module TableFacts.
Import Table Lookup Parse.

(** C16: Every initialiser of [cdc_descriptor] is already a [uint8_t]
    value, so the conversion of the initialiser list truncates nothing
    (both builds). *)
Theorem cdc_descriptor_no_truncation hs :
  all_u8 (cdc_descriptor_init hs) = true /\ cdc_descriptor hs = cdc_descriptor_init hs.
Proof. destruct hs; split; by_eval. Qed.

(** C12: [cdc_descriptor] is a chain of well-formed descriptors closed by
    the zero terminator, in the order device, configuration, interface
    association, control interface, four CDC functional descriptors,
    notification endpoint, data interface, bulk OUT, bulk IN, language-ID
    string and three text strings, followed by the device qualifier only in
    the [CONFIG_USB_HS] build. *)
Theorem cdc_descriptor_layout hs :
  (fun cs => (forallb desc_wf cs, bool_decide (concat cs ++ [0] = cdc_descriptor hs),
              map desc_type cs)) <$> parse_table (cdc_descriptor hs) =
  Some (true, true,
        [USB_DESCRIPTOR_TYPE_DEVICE; USB_DESCRIPTOR_TYPE_CONFIGURATION;
         USB_DESCRIPTOR_TYPE_INTERFACE_ASSOCIATION; USB_DESCRIPTOR_TYPE_INTERFACE;
         CDC_CS_INTERFACE; CDC_CS_INTERFACE; CDC_CS_INTERFACE; CDC_CS_INTERFACE;
         USB_DESCRIPTOR_TYPE_ENDPOINT; USB_DESCRIPTOR_TYPE_INTERFACE;
         USB_DESCRIPTOR_TYPE_ENDPOINT; USB_DESCRIPTOR_TYPE_ENDPOINT;
         USB_DESCRIPTOR_TYPE_STRING; USB_DESCRIPTOR_TYPE_STRING;
         USB_DESCRIPTOR_TYPE_STRING; USB_DESCRIPTOR_TYPE_STRING] ++
        (if hs then [USB_DESCRIPTOR_TYPE_DEVICE_QUALIFIER] else [])).
Proof. destruct hs; by_eval. Qed.

(** C11: The configuration descriptor's [wTotalLength] (the hand-computed
    [USB_CONFIG_SIZE]) equals the byte count of the configuration
    descriptor and the interface, functional and endpoint descriptors after
    it, up to the next top-level descriptor. *)
Theorem cdc_config_total_length hs :
  config_totals_ok <$> parse_table (cdc_descriptor hs) = Some true /\
  rd16 (cdc_descriptor hs) 20 = Some USB_CONFIG_SIZE.
Proof. destruct hs; split; by_eval. Qed.

(** C15: The hand-written string descriptors follow the rule
    [bLength = 2 + 2*len(text)] with UTF-16LE text, and the table's text
    strings read back as manufacturer, product and serial number. *)
Theorem cdc_string_descriptors hs :
  string1_descriptor = usb_string_descriptor "CherryUSB" /\
  string2_descriptor = usb_string_descriptor "CherryUSB CDC DEMO" /\
  string3_descriptor = usb_string_descriptor "2022123456" /\
  text_strings <$> parse_table (cdc_descriptor hs) =
    Some ["CherryUSB"; "CherryUSB CDC DEMO"; "2022123456"]%string.
Proof. destruct hs; repeat split; by_eval. Qed.

(** C17: In the [CONFIG_USB_HS] build the device qualifier announces class
    0x02 (CDC) while the device descriptor announces 0xEF (miscellaneous,
    interface association); the qualifier's other fields agree with the
    device descriptor. *)
Theorem qualifier_class_mismatch :
  (fun cs => (first_of_type USB_DESCRIPTOR_TYPE_DEVICE cs ≫= (fun c => c !! 4%nat),
              first_of_type USB_DESCRIPTOR_TYPE_DEVICE_QUALIFIER cs ≫= (fun c => c !! 4%nat)))
    <$> parse_table (cdc_descriptor true) = Some (Some 0xEF, Some 0x02) /\
  (fun cs => (first_of_type USB_DESCRIPTOR_TYPE_DEVICE cs ≫= (fun c => Some (drop 5 c)),
              first_of_type USB_DESCRIPTOR_TYPE_DEVICE_QUALIFIER cs ≫=
                (fun c => Some (drop 5 c))))
    <$> parse_table (cdc_descriptor true) =
  Some (Some [0x02; 0x01; 0x40; 0xFF; 0xFF; 0xFF; 0xFF; 0x00; 0x01; 0x01; 0x02; 0x03; 0x01],
        Some [0x02; 0x01; 0x40; 0x01; 0x00]).
Proof. split; by_eval. Qed.

End TableFacts.
