(* ===== verification/CdcAcm.v ===== *)
(** * The CDC-ACM core: globals, event and completion handlers, send, init

    Translates lines 107-216 of [src/fw/src/setup/usb.c].  The core talks
    to the USB device stack only through the calls of the [UsbdApi]
    interface (the stack functions [usbd_ep_start_read],
    [usbd_ep_start_write], [usbd_desc_register], [usbd_add_interface],
    [usbd_add_endpoint], [usbd_initialize]); every handler is a function
    of the core's globals and of the stack's state, generic in the
    implementation of the interface.  [cdc_acm_data_send_with_dtr_test] is
    modelled statement by statement ([send_step]), so that the completion
    interrupts of the stack can interleave with it (see [System.v]). *)

From S2P Require Import Prelude UsbDef Descriptor.
From Stdlib Require Import Ascii.
Import ListNotations.
Import Table.

Open Scope Z_scope.

(** ** The stack interface *)

(** The buffers passed to the stack: [read_buffer], [write_buffer], [NULL]. *)
Inductive buffer_ref := ReadBuffer | WriteBuffer | NullBuffer.

#[export] Instance buffer_ref_eq_dec : EqDecision buffer_ref.
Proof. solve_decision. Defined.

(** The two [struct usbd_interface] objects. *)
Inductive intf_ref := intf0 | intf1.

#[export] Instance intf_ref_eq_dec : EqDecision intf_ref.
Proof. solve_decision. Defined.

(** The completion callbacks stored in a [struct usbd_endpoint]. *)
Inductive ep_callback := cb_bulk_out | cb_bulk_in.

#[export] Instance ep_callback_eq_dec : EqDecision ep_callback.
Proof. solve_decision. Defined.

(** [struct usbd_endpoint { ep_addr; ep_cb; }] *)
Record usbd_endpoint := { ep_addr : Z; ep_cb : ep_callback }.

#[export] Instance usbd_endpoint_eq_dec : EqDecision usbd_endpoint.
Proof. solve_decision. Defined.

(** What the core may ask of the stack (state [St] of the stack). *)
Class UsbdApi (St : Type) := {
  usbd_ep_start_read : St -> Z -> buffer_ref -> Z -> St;
  usbd_ep_start_write : St -> Z -> buffer_ref -> Z -> St;
  usbd_desc_register : St -> bytes -> St;
  usbd_add_interface : St -> intf_ref -> St;
  usbd_add_endpoint : St -> usbd_endpoint -> St;
  usbd_initialize : St -> St
}.

(** ** The globals of [usb.c] *)

Record cdc_globals := {
  read_buffer : bytes;        (* uint8_t read_buffer[2048] *)
  write_buffer : bytes;       (* uint8_t write_buffer[2048] *)
  ep_tx_busy_flag : bool;     (* volatile bool ep_tx_busy_flag *)
  dtr_enable : Z              (* volatile uint8_t dtr_enable *)
}.

(** [volatile uint8_t dtr_enable = 0;] *)
Definition dtr_enable_init : Z := 0.

(** Static storage starts zeroed; [ep_tx_busy_flag = false]. *)
Definition cdc_globals_init : cdc_globals :=
  {| read_buffer := replicate 2048 0; write_buffer := replicate 2048 0;
     ep_tx_busy_flag := false; dtr_enable := dtr_enable_init |}.

Definition set_ep_tx_busy_flag (b : bool) (g : cdc_globals) : cdc_globals :=
  {| read_buffer := read_buffer g; write_buffer := write_buffer g;
     ep_tx_busy_flag := b; dtr_enable := dtr_enable g |}.

Definition set_dtr_enable (v : Z) (g : cdc_globals) : cdc_globals :=
  {| read_buffer := read_buffer g; write_buffer := write_buffer g;
     ep_tx_busy_flag := ep_tx_busy_flag g; dtr_enable := v |}.

Definition set_write_buffer (b : bytes) (g : cdc_globals) : cdc_globals :=
  {| read_buffer := read_buffer g; write_buffer := b;
     ep_tx_busy_flag := ep_tx_busy_flag g; dtr_enable := dtr_enable g |}.

Definition set_read_buffer (b : bytes) (g : cdc_globals) : cdc_globals :=
  {| read_buffer := b; write_buffer := write_buffer g;
     ep_tx_busy_flag := ep_tx_busy_flag g; dtr_enable := dtr_enable g |}.

(** Statements of [cdc_acm_data_send_with_dtr_test] (line numbers of
    [usb.c]); [SendIdle] is outside the function. *)
Inductive send_pc :=
| SendIdle      (* not executing the function *)
| SendL210      (* if (dtr_enable) *)
| SendL211      (* ep_tx_busy_flag = true; *)
| SendL212      (* usbd_ep_start_write(CDC_IN_EP, write_buffer, 2048); *)
| SendL213.     (* while (ep_tx_busy_flag) { } *)

#[export] Instance send_pc_eq_dec : EqDecision send_pc.
Proof. solve_decision. Defined.

(** The second [#ifdef CONFIG_USB_HS] / [#define CDC_MAX_MPS] (lines
    112-116): the definition in scope in [usbd_cdc_acm_bulk_in]. *)
Definition CDC_MAX_MPS_handler (hs : bool) : Z := if hs then 512 else 64.

Section Handlers.
Context {St : Type} `{!UsbdApi St}.

(** [CONFIG_USB_HS] *)
Variable hs : bool.

(** [usbd_event_handler(uint8_t event)]: only [USBD_EVENT_CONFIGURED] does
    something, it arms the first OUT read. *)
Definition usbd_event_handler (event : Z) (g : cdc_globals) (st : St) : cdc_globals * St :=
  match usbd_event_of_code event with
  | Some USBD_EVENT_RESET => (g, st)
  | Some USBD_EVENT_CONNECTED => (g, st)
  | Some USBD_EVENT_DISCONNECTED => (g, st)
  | Some USBD_EVENT_RESUME => (g, st)
  | Some USBD_EVENT_SUSPEND => (g, st)
  | Some USBD_EVENT_CONFIGURED => (g, usbd_ep_start_read st CDC_OUT_EP ReadBuffer 2048)
  | Some USBD_EVENT_SET_REMOTE_WAKEUP => (g, st)
  | Some USBD_EVENT_CLR_REMOTE_WAKEUP => (g, st)
  | _ => (g, st)
  end.

(** [usbd_cdc_acm_bulk_out(ep, nbytes)]: re-arm the next OUT read. *)
Definition usbd_cdc_acm_bulk_out (ep nbytes : Z) (g : cdc_globals) (st : St)
    : cdc_globals * St :=
  (g, usbd_ep_start_read st CDC_OUT_EP ReadBuffer 2048).

(** [usbd_cdc_acm_bulk_in(ep, nbytes)]: send a zero-length packet after a
    transfer that is a non-empty multiple of the packet size, else release
    the busy flag.  [nbytes] is a [uint32_t]. *)
Definition usbd_cdc_acm_bulk_in (ep nbytes : Z) (g : cdc_globals) (st : St)
    : cdc_globals * St :=
  let n := u32 nbytes in
  if (n mod CDC_MAX_MPS_handler hs =? 0) && negb (n =? 0)
  then (g, usbd_ep_start_write st CDC_IN_EP NullBuffer 0)
  else (set_ep_tx_busy_flag false g, st).

(** [usbd_cdc_acm_set_dtr(intf, dtr)] *)
Definition usbd_cdc_acm_set_dtr (intf : Z) (dtr : bool) (g : cdc_globals) : cdc_globals :=
  if dtr then set_dtr_enable 1 g else set_dtr_enable 0 g.

(** One statement of [cdc_acm_data_send_with_dtr_test]. *)
Definition send_step (pc : send_pc) (g : cdc_globals) (st : St)
    : send_pc * cdc_globals * St :=
  match pc with
  | SendIdle => (SendL210, g, st)
  | SendL210 => if bool_decide (dtr_enable g <> 0) then (SendL211, g, st)
                else (SendIdle, g, st)
  | SendL211 => (SendL212, set_ep_tx_busy_flag true g, st)
  | SendL212 => (SendL213, g, usbd_ep_start_write st CDC_IN_EP WriteBuffer 2048)
  | SendL213 => if ep_tx_busy_flag g then (SendL213, g, st) else (SendIdle, g, st)
  end.

(** The ten digits copied at the start of [write_buffer]. *)
Definition cdc_acm_init_data : bytes :=
  [0x31; 0x32; 0x33; 0x34; 0x35; 0x36; 0x37; 0x38; 0x39; 0x30].

Definition cdc_out_ep : usbd_endpoint := {| ep_addr := CDC_OUT_EP; ep_cb := cb_bulk_out |}.
Definition cdc_in_ep : usbd_endpoint := {| ep_addr := CDC_IN_EP; ep_cb := cb_bulk_in |}.

(** [cdc_acm_init()]: fill [write_buffer], then register the descriptor
    table, both interfaces and both endpoints, and start the stack.
    [None] is undefined behaviour of an out-of-range [memcpy]/[memset]. *)
Definition cdc_acm_init (g : cdc_globals) (st : St) : option (cdc_globals * St) :=
  match c_memcpy (write_buffer g) 0 cdc_acm_init_data with
  | None => None
  | Some wb1 =>
    match c_memset wb1 10 (chr "a") 2038 with
    | None => None
    | Some wb2 =>
      let st1 := usbd_desc_register st (cdc_descriptor hs) in
      let st2 := usbd_add_interface st1 intf0 in
      let st3 := usbd_add_interface st2 intf1 in
      let st4 := usbd_add_endpoint st3 cdc_out_ep in
      let st5 := usbd_add_endpoint st4 cdc_in_ep in
      Some (set_write_buffer wb2 g, usbd_initialize st5)
    end
  end.

End Handlers.

(** ** A stack that records the calls: the trace implementation *)

Inductive usbd_call :=
| CallStartRead (ep : Z) (buf : buffer_ref) (len : Z)
| CallStartWrite (ep : Z) (buf : buffer_ref) (len : Z)
| CallDescRegister (d : bytes)
| CallAddInterface (i : intf_ref)
| CallAddEndpoint (e : usbd_endpoint)
| CallInitialize.

#[export] Instance usbd_call_eq_dec : EqDecision usbd_call.
Proof. solve_decision. Defined.

#[export] Instance trace_api : UsbdApi (list usbd_call) := {
  usbd_ep_start_read t ep b n := t ++ [CallStartRead ep b n];
  usbd_ep_start_write t ep b n := t ++ [CallStartWrite ep b n];
  usbd_desc_register t d := t ++ [CallDescRegister d];
  usbd_add_interface t i := t ++ [CallAddInterface i];
  usbd_add_endpoint t e := t ++ [CallAddEndpoint e];
  usbd_initialize t := t ++ [CallInitialize]
}.

(** The calls of [cdc_acm_init], in the order of lines 189-194. *)
Definition cdc_acm_init_calls (hs : bool) : list usbd_call :=
  [CallDescRegister (cdc_descriptor hs); CallAddInterface intf0; CallAddInterface intf1;
   CallAddEndpoint cdc_out_ep; CallAddEndpoint cdc_in_ep; CallInitialize].

(** A transfer request, the only calls the handlers make after start-up. *)
Definition is_transfer_call (c : usbd_call) : bool :=
  match c with CallStartRead _ _ _ | CallStartWrite _ _ _ => true | _ => false end.

(** ** Theorems, for every implementation of the stack interface *)

Section HandlerFacts.
Context {St : Type} `{!UsbdApi St}.

Lemma usbd_event_handler_event (e : usbd_event_type) (g : cdc_globals) (st : St) :
  usbd_event_handler (usbd_event_code e) g st =
  if bool_decide (e = USBD_EVENT_CONFIGURED)
  then (g, usbd_ep_start_read st CDC_OUT_EP ReadBuffer 2048)
  else (g, st).
Proof. destruct e; reflexivity. Qed.

Lemma usbd_cdc_acm_bulk_in_multiple (hs : bool) (ep n : Z) (g : cdc_globals) (st : St) :
  0 < n < 2 ^ 32 -> (CDC_MAX_MPS_handler hs | n) ->
  usbd_cdc_acm_bulk_in hs ep n g st = (g, usbd_ep_start_write st CDC_IN_EP NullBuffer 0).
Proof.
  intros Hn Hd. unfold usbd_cdc_acm_bulk_in. rewrite u32_id by lia.
  apply Z.mod_divide in Hd; [|destruct hs; discriminate].
  rewrite Hd. simpl. rewrite (proj2 (Z.eqb_neq n 0)) by lia. reflexivity.
Qed.

(** C10: [usbd_event_handler] acts only on [USBD_EVENT_CONFIGURED], by
    arming a 2048-byte read of [read_buffer] on [CDC_OUT_EP]; every other
    event code, known or not, leaves the globals and the stack untouched. *)
Theorem usbd_event_handler_spec (event : Z) (g : cdc_globals) (st : St) :
  usbd_event_handler event g st =
  if bool_decide (event = usbd_event_code USBD_EVENT_CONFIGURED)
  then (g, usbd_ep_start_read st CDC_OUT_EP ReadBuffer 2048)
  else (g, st).
Proof.
  unfold usbd_event_handler.
  destruct (usbd_event_of_code event) as [e|] eqn:E.
  - apply usbd_event_of_code_inv in E. subst event.
    destruct e; reflexivity.
  - rewrite bool_decide_eq_false_2; [done|].
    intros ->. by rewrite usbd_event_of_code_code in E.
Qed.

Lemma u32_mod_zero_divide (m n : Z) :
  0 < m -> ((n mod m =? 0) = true <-> (m | n)).
Proof. intros Hm. rewrite Z.eqb_eq. split; [apply Z.mod_divide | apply Z.mod_divide]; lia. Qed.

(** C3: The ZLP rule of [usbd_cdc_acm_bulk_in]: for every [uint32_t]
    byte count, a zero-length packet is submitted on [CDC_IN_EP] (busy
    flag kept) exactly when the count is non-zero and divisible by
    [CDC_MAX_MPS] (64, or 512 in the [CONFIG_USB_HS] build); otherwise the busy flag is cleared and nothing is
    submitted. *)
Theorem usbd_cdc_acm_bulk_in_zlp_rule (hs : bool) (ep n : Z) (g : cdc_globals) (st : St) :
  0 <= n < 2 ^ 32 ->
  usbd_cdc_acm_bulk_in hs ep n g st =
  if bool_decide (0 < n /\ (CDC_MAX_MPS_handler hs | n))
  then (g, usbd_ep_start_write st CDC_IN_EP NullBuffer 0)
  else (set_ep_tx_busy_flag false g, st).
Proof.
  intros Hn. unfold usbd_cdc_acm_bulk_in. rewrite u32_id by done.
  assert (Hm : 0 < CDC_MAX_MPS_handler hs) by (destruct hs; reflexivity).
  destruct (n mod CDC_MAX_MPS_handler hs =? 0) eqn:Hmod, (n =? 0) eqn:Hz; simpl.
  - rewrite bool_decide_eq_false_2; [done|]. apply Z.eqb_eq in Hz. lia.
  - apply (u32_mod_zero_divide _ n Hm) in Hmod. apply Z.eqb_neq in Hz.
    rewrite bool_decide_eq_true_2; [done | split; [lia | done]].
  - rewrite bool_decide_eq_false_2; [done|]. apply Z.eqb_eq in Hz. lia.
  - rewrite bool_decide_eq_false_2; [done|]. intros [_ Hd].
    apply (u32_mod_zero_divide _ n Hm) in Hd. congruence.
Qed.

(** On a 2048-byte [write_buffer] both copies of [cdc_acm_init] stay in
    bounds, so it makes its registrations in the source's order. *)
Lemma cdc_acm_init_registers (hs : bool) (g : cdc_globals) (st : St) :
  length (write_buffer g) = 2048%nat ->
  exists g', cdc_acm_init hs g st =
  Some (g', usbd_initialize
              (usbd_add_endpoint
                 (usbd_add_endpoint
                    (usbd_add_interface
                       (usbd_add_interface (usbd_desc_register st (cdc_descriptor hs)) intf0)
                       intf1)
                    cdc_out_ep)
                 cdc_in_ep)).
Proof.
  intros Hlen. unfold cdc_acm_init.
  rewrite c_memcpy_ok by (simpl; lia). unfold c_memset.
  rewrite c_memcpy_ok.
  2:{ rewrite !length_app, length_take, length_drop, length_replicate. simpl. lia. }
  eexists. reflexivity.
Qed.

(** C14: [cdc_acm_init] on a 2048-byte [write_buffer] stays in bounds: the
    buffer becomes the ten ASCII digits "1234567890" followed by 2038
    bytes 'a', the other globals are unchanged, and the stack receives,
    in this order, the descriptor table, [intf0], [intf1], the OUT and IN
    endpoints with their callbacks, and [usbd_initialize]. *)
Theorem cdc_acm_init_spec (hs : bool) (g : cdc_globals) (st : St) :
  length (write_buffer g) = 2048%nat ->
  cdc_acm_init hs g st =
  Some (set_write_buffer (cdc_acm_init_data ++ replicate 2038 (chr "a")) g,
        usbd_initialize
          (usbd_add_endpoint
             (usbd_add_endpoint
                (usbd_add_interface
                   (usbd_add_interface (usbd_desc_register st (cdc_descriptor hs)) intf0)
                   intf1)
                cdc_out_ep)
             cdc_in_ep)).
Proof.
  intros Hlen. unfold cdc_acm_init.
  rewrite c_memcpy_ok by (simpl; lia). unfold c_memset.
  rewrite c_memcpy_ok.
  2:{ rewrite !length_app, length_take, length_drop, length_replicate. simpl. lia. }
  do 3 f_equal. change (chr "a") with 97. rewrite u8_id by lia.
  rewrite take_0, app_nil_l, length_replicate.
  change 10%nat with (length cdc_acm_init_data) at 1.
  rewrite take_app_length, drop_app_ge by (simpl; lia).
  rewrite drop_ge by (rewrite length_drop; simpl; lia). by rewrite app_nil_r.
Qed.

End HandlerFacts.

(** Witnesses on the trace implementation of the stack. *)

Lemma usbd_cdc_acm_bulk_in_zlp_rule_witness :
  (0 <= 2048 < 2 ^ 32) /\
  usbd_cdc_acm_bulk_in false CDC_IN_EP 2048 cdc_globals_init ([] : list usbd_call) =
  (cdc_globals_init, [CallStartWrite CDC_IN_EP NullBuffer 0]).
Proof.
  split; [lia|].
  rewrite (usbd_cdc_acm_bulk_in_zlp_rule false CDC_IN_EP 2048 cdc_globals_init [])
    by lia.
  rewrite bool_decide_eq_true_2; [reflexivity|].
  split; [lia | exists 32; reflexivity].
Defined.

Lemma cdc_acm_init_spec_witness :
  length (write_buffer cdc_globals_init) = 2048%nat /\
  cdc_acm_init false cdc_globals_init ([] : list usbd_call) =
  Some (set_write_buffer (cdc_acm_init_data ++ replicate 2038 (chr "a")) cdc_globals_init,
        [CallDescRegister (cdc_descriptor false); CallAddInterface intf0;
         CallAddInterface intf1; CallAddEndpoint cdc_out_ep; CallAddEndpoint cdc_in_ep;
         CallInitialize]).
Proof.
  split; [reflexivity|].
  rewrite (cdc_acm_init_spec false cdc_globals_init []) by reflexivity. reflexivity.
Defined.


(** C27: The packet size of the ZLP rule agrees with the table: in both
    builds the [CDC_MAX_MPS] in scope in [usbd_cdc_acm_bulk_in] (the second
    definition, lines 112-116) is the [wMaxPacketSize] that [cdc_descriptor]
    declares for the bulk endpoint [CDC_IN_EP] (attributes 0x02), so a
    transfer ends with a zero-length packet exactly when the host cannot
    tell its end from a full packet. *)
Theorem zlp_packet_size_is_endpoint_mps hs :
  (fun cs => Parse.endpoint_desc cs CDC_IN_EP) <$> Parse.parse_table (cdc_descriptor hs) =
  Some (Some (2, CDC_MAX_MPS_handler hs)).
Proof. destruct hs; by_eval. Qed.

(** The endpoints [cdc_acm_init] registers, in order, with their callbacks. *)
Definition registered_endpoints (calls : list usbd_call) : list usbd_endpoint :=
  omap (fun c => match c with CallAddEndpoint e => Some e | _ => None end) calls.

(** C13: The endpoint bindings agree with the table, in both builds: the
    endpoints [cdc_acm_init] registers are one OUT and one IN endpoint,
    bound to [usbd_cdc_acm_bulk_out] and [usbd_cdc_acm_bulk_in]; the
    direction bit (0x80) of each address matches its callback; each is
    declared in [cdc_descriptor] as a bulk endpoint (attributes 0x02) whose
    [wMaxPacketSize] is the packet size of the ZLP rule; and the
    notification endpoint [CDC_INT_EP], declared as an 8-byte interrupt
    endpoint, is not registered. *)
Theorem registered_endpoints_match_table hs :
  exists g calls, cdc_acm_init hs cdc_globals_init [] = Some (g, calls) /\
  map ep_cb (registered_endpoints calls) = [cb_bulk_out; cb_bulk_in] /\
  Forall (fun e =>
      Z.testbit (ep_addr e) 7 = bool_decide (ep_cb e = cb_bulk_in) /\
      (fun cs => Parse.endpoint_desc cs (ep_addr e)) <$> Parse.parse_table (cdc_descriptor hs) =
        Some (Some (2, CDC_MAX_MPS_handler hs)))
    (registered_endpoints calls) /\
  (fun cs => Parse.endpoint_desc cs CDC_INT_EP) <$> Parse.parse_table (cdc_descriptor hs) =
    Some (Some (3, 8)).
Proof.
  destruct hs; (eexists _, _; split; [vm_compute; reflexivity|]);
    (split; [reflexivity|]); (split; [repeat constructor; by_eval | by_eval]).
Qed.

