(* ===== verification/System.v ===== *)
(** * The closed loop: the core, the stack's endpoints and the application

    [Module Stack] is the part of the USB device stack the core depends on
    (spec_modelled, the stack is not in [src/]): an armed OUT read, an
    in-flight IN write, the log of calls, and what a bus reset does to
    pending transfers.  [Module Loop] composes it with the handlers of
    [CdcAcm.v]: one step is one interrupt of the stack (bus event, OUT or
    IN completion, DTR class request) or one statement of the application's
    call to [cdc_acm_data_send_with_dtr_test], in any interleaving.
    Reachable states satisfy [sys_inv], proved by rule induction. *)

From S2P Require Import Prelude UsbDef Descriptor CdcAcm.
Import ListNotations.
Import Table.

Open Scope Z_scope.
#[local] Set Warnings "-clear-no-such-hyp".


Module Stack.

Record stack_state := {
  st_calls : list usbd_call;             (* every call the core made *)
  st_out : option (buffer_ref * Z);      (* read armed on CDC_OUT_EP *)
  st_in : option (buffer_ref * Z);       (* write in flight on CDC_IN_EP *)
  st_in_overlap : bool                   (* a write was started on a busy IN endpoint *)
}.

Definition stack_init : stack_state :=
  {| st_calls := []; st_out := None; st_in := None; st_in_overlap := false |}.

Definition log_call (c : usbd_call) (s : stack_state) : stack_state :=
  {| st_calls := st_calls s ++ [c]; st_out := st_out s; st_in := st_in s;
     st_in_overlap := st_in_overlap s |}.

(** [usbd_ep_start_read]: arm the OUT endpoint (only [CDC_OUT_EP] exists). *)
Definition stack_start_read (s : stack_state) (ep : Z) (b : buffer_ref) (n : Z) : stack_state :=
  {| st_calls := st_calls s ++ [CallStartRead ep b n]; st_out := Some (b, n);
     st_in := st_in s; st_in_overlap := st_in_overlap s |}.

(** [usbd_ep_start_write]: start the IN transfer; starting one while
    another is in flight is recorded in [st_in_overlap]. *)
Definition stack_start_write (s : stack_state) (ep : Z) (b : buffer_ref) (n : Z) : stack_state :=
  {| st_calls := st_calls s ++ [CallStartWrite ep b n]; st_out := st_out s;
     st_in := Some (b, n);
     st_in_overlap := st_in_overlap s || bool_decide (st_in s <> None) |}.

#[export] Instance stack_api : UsbdApi stack_state := {
  usbd_ep_start_read := stack_start_read;
  usbd_ep_start_write := stack_start_write;
  usbd_desc_register s d := log_call (CallDescRegister d) s;
  usbd_add_interface s i := log_call (CallAddInterface i) s;
  usbd_add_endpoint s e := log_call (CallAddEndpoint e) s;
  usbd_initialize s := log_call CallInitialize s
}.

(** A completed transfer is no longer pending. *)
Definition clear_out (s : stack_state) : stack_state :=
  {| st_calls := st_calls s; st_out := None; st_in := st_in s;
     st_in_overlap := st_in_overlap s |}.

Definition clear_in (s : stack_state) : stack_state :=
  {| st_calls := st_calls s; st_out := st_out s; st_in := None;
     st_in_overlap := st_in_overlap s |}.

(** USB bus reset: the controller drops every pending transfer of the
    non-control endpoints, without calling their completion handlers. *)
Definition stack_bus_reset (s : stack_state) : stack_state := clear_in (clear_out s).

End Stack.

Module Loop.
Import Stack.

Record sys_state := {
  sys_g : cdc_globals;
  sys_st : stack_state;
  sys_pc : send_pc
}.

(** What can happen next. *)
Inductive sys_event :=
| EvBus (e : usbd_event_type)      (* the stack calls usbd_event_handler *)
| EvOutDone (data : bytes)         (* the host sent [data] into the armed read *)
| EvInDone                         (* the in-flight IN transfer completed *)
| EvSetDtr (intf : Z) (dtr : bool) (* SET_CONTROL_LINE_STATE class request *)
| EvApp.                           (* one statement of the application *)

Section WithBuild.
Variable hs : bool.

Definition sys_step_fn (s : sys_state) (ev : sys_event) : option sys_state :=
  let g := sys_g s in
  let st := sys_st s in
  match ev with
  | EvBus e =>
    let st0 := if bool_decide (e = USBD_EVENT_RESET) then stack_bus_reset st else st in
    let '(g', st') := usbd_event_handler (usbd_event_code e) g st0 in
    Some {| sys_g := g'; sys_st := st'; sys_pc := sys_pc s |}
  | EvOutDone data =>
    match st_out st with
    | Some (ReadBuffer, len) =>
      if bool_decide (Z.of_nat (length data) <= len) then
        match c_memcpy (read_buffer g) 0 data with
        | Some rb =>
          let '(g', st') := usbd_cdc_acm_bulk_out CDC_OUT_EP (Z.of_nat (length data))
                              (set_read_buffer rb g) (clear_out st) in
          Some {| sys_g := g'; sys_st := st'; sys_pc := sys_pc s |}
        | None => None
        end
      else None
    | _ => None
    end
  | EvInDone =>
    match st_in st with
    | Some (_, len) =>
      let '(g', st') := usbd_cdc_acm_bulk_in hs CDC_IN_EP len g (clear_in st) in
      Some {| sys_g := g'; sys_st := st'; sys_pc := sys_pc s |}
    | None => None
    end
  | EvSetDtr intf dtr =>
    Some {| sys_g := usbd_cdc_acm_set_dtr intf dtr g; sys_st := st; sys_pc := sys_pc s |}
  | EvApp =>
    let '(pc', g', st') := send_step (sys_pc s) g st in
    Some {| sys_g := g'; sys_st := st'; sys_pc := pc' |}
  end.

Inductive sys_step : sys_state -> sys_state -> Prop :=
| SysStep s ev s' : sys_step_fn s ev = Some s' -> sys_step s s'.

(** Run a sequence of events. *)
Fixpoint sys_run (s : sys_state) (evs : list sys_event) : option sys_state :=
  match evs with
  | [] => Some s
  | ev :: evs' => match sys_step_fn s ev with
                  | Some s' => sys_run s' evs'
                  | None => None
                  end
  end.

(** After [cdc_acm_init] on the zeroed globals and the idle stack. *)
Definition sys_boot : sys_state :=
  match cdc_acm_init hs cdc_globals_init stack_init with
  | Some (g, st) => {| sys_g := g; sys_st := st; sys_pc := SendIdle |}
  | None => {| sys_g := cdc_globals_init; sys_st := stack_init; sys_pc := SendIdle |}
  end.

Definition reachable (s : sys_state) : Prop := rtc sys_step sys_boot s.

End WithBuild.

(** ** States the scenarios of the specification reach (used by the witnesses) *)

(** The host enumerates the device: bus reset, connection, configuration. *)
Definition enumerate : list sys_event :=
  [EvBus USBD_EVENT_RESET; EvBus USBD_EVENT_CONNECTED; EvBus USBD_EVENT_CONFIGURED].

(** The application calls the send function: the four statements up to the
    spin loop. *)
Definition app_call : list sys_event := [EvApp; EvApp; EvApp; EvApp].

(** The state of a send in progress: enumerated, DTR asserted, the
    application spinning on the busy flag with the 2048-byte write in
    flight. *)
Definition sending_state (hs : bool) : sys_state :=
  default (sys_boot hs) (sys_run hs (sys_boot hs) (enumerate ++ [EvSetDtr 0 true] ++ app_call)).

(** The state just after enumeration. *)
Definition configured_state (hs : bool) : sys_state :=
  default (sys_boot hs) (sys_run hs (sys_boot hs) enumerate).

(** The invariant of reachable states. *)
Record sys_inv (s : sys_state) : Prop := {
  inv_no_overlap : st_in_overlap (sys_st s) = false;
  inv_in_busy : st_in (sys_st s) <> None -> ep_tx_busy_flag (sys_g s) = true;
  inv_busy_pc : ep_tx_busy_flag (sys_g s) = true ->
                sys_pc s = SendL212 \/ sys_pc s = SendL213;
  inv_l212 : sys_pc s = SendL212 ->
             st_in (sys_st s) = None /\ ep_tx_busy_flag (sys_g s) = true;
  inv_out : st_out (sys_st s) = None \/ st_out (sys_st s) = Some (ReadBuffer, 2048);
  inv_in : st_in (sys_st s) = None \/ st_in (sys_st s) = Some (WriteBuffer, 2048) \/
           st_in (sys_st s) = Some (NullBuffer, 0);
  inv_rb : length (read_buffer (sys_g s)) = 2048%nat
}.

End Loop.

(** ** The invariant holds in every reachable state *)

Module LoopFacts.
Import Stack Loop.

Ltac destruct_sys s :=
  destruct s as [[?rb ?wb ?busy ?dtr] [?calls ?out ?inn ?ov] ?pc].

(** Case analysis of one step [H : sys_step_fn hs s ev = Some s']. *)
Ltac sys_step_cases s ev H :=
  destruct ev as [?e|?data| |?intf ?dtrb|]; cbn [sys_step_fn] in H;
  [ rewrite usbd_event_handler_event in H;
    destruct (bool_decide (_ = USBD_EVENT_RESET)) eqn:?Er;
    destruct (bool_decide (_ = USBD_EVENT_CONFIGURED)) eqn:?Ec in H
  | destruct (st_out (sys_st s)) as [[[] ?len]|] eqn:?Eo; try congruence;
    destruct (bool_decide _); try congruence;
    destruct (c_memcpy _ 0 _); try congruence
  | destruct (st_in (sys_st s)) as [[?bin ?len]|] eqn:?Ei; try congruence;
    unfold usbd_cdc_acm_bulk_in in H; destruct (_ && _)
  | destruct dtrb
  | destruct (sys_pc s) eqn:?Epc; cbn [send_step] in H;
    try destruct (bool_decide (_ <> 0)); try destruct (ep_tx_busy_flag (sys_g s)) eqn:?Eb ];
  simplify_eq/=.

Lemma sys_inv_boot hs : sys_inv (sys_boot hs).
Proof.
  destruct hs; constructor; vm_compute; try done; intros; try congruence; auto.
Qed.

Lemma sys_inv_bus hs s e s' :
  sys_inv s -> sys_step_fn hs s (EvBus e) = Some s' -> sys_inv s'.
Proof.
  intros [Hov Hib Hbp H212 Hout Hin Hrb] H. destruct_sys s. simpl in *.
  rewrite usbd_event_handler_event in H.
  destruct (bool_decide (e = USBD_EVENT_RESET)) eqn:Er;
    destruct (bool_decide (e = USBD_EVENT_CONFIGURED)) eqn:Ec in H; simplify_eq/=;
    constructor; simpl; naive_solver.
Qed.

Lemma sys_inv_out hs s data s' :
  sys_inv s -> sys_step_fn hs s (EvOutDone data) = Some s' -> sys_inv s'.
Proof.
  intros [Hov Hib Hbp H212 Hout Hin Hrb] H. destruct_sys s. simpl in *.
  destruct out as [[[] len]|]; try done.
  destruct (bool_decide (Z.of_nat (length data) <= len)); [|done].
  destruct (c_memcpy rb 0 data) as [rb'|] eqn:Em; [|done].
  apply c_memcpy_length in Em. rewrite Hrb in Em. simplify_eq/=.
  constructor; simpl; naive_solver.
Qed.

Lemma sys_inv_in hs s s' :
  sys_inv s -> sys_step_fn hs s EvInDone = Some s' -> sys_inv s'.
Proof.
  intros [Hov Hib Hbp H212 Hout Hin Hrb] H. destruct_sys s. simpl in *.
  destruct inn as [[b len]|]; [|done].
  assert (Hb : busy = true) by auto.
  destruct Hin as [?|[Hw|Hn]]; [done| |]; simplify_eq/=.
  - rewrite usbd_cdc_acm_bulk_in_multiple in H
      by (lia || (destruct hs; [exists 4 | exists 32]; reflexivity)).
    simplify_eq/=. constructor; simpl; naive_solver.
  - constructor; simpl; naive_solver.
Qed.

Lemma sys_inv_dtr hs s intf dtr s' :
  sys_inv s -> sys_step_fn hs s (EvSetDtr intf dtr) = Some s' -> sys_inv s'.
Proof.
  intros [Hov Hib Hbp H212 Hout Hin Hrb] H. destruct_sys s. simpl in *.
  destruct dtr; simplify_eq/=; constructor; simpl; naive_solver.
Qed.

Lemma sys_inv_app hs s s' :
  sys_inv s -> sys_step_fn hs s EvApp = Some s' -> sys_inv s'.
Proof.
  intros [Hov Hib Hbp H212 Hout Hin Hrb] H. destruct_sys s. simpl in *.
  destruct pc; simpl in H.
  - simplify_eq/=. constructor; simpl; intuition congruence.
  - destruct (bool_decide (dtr <> 0)); simplify_eq/=;
      constructor; simpl; intuition congruence.
  - destruct busy; [by destruct (Hbp eq_refl)|].
    simplify_eq/=. constructor; simpl; try done.
    + auto.
    + intros _. split; [|done]. destruct inn; [|done].
      by discriminate (Hib ltac:(done)).
  - simplify_eq/=. destruct H212 as [-> ->]; [done|].
    constructor; simpl; intuition congruence.
  - destruct busy; simplify_eq/=; constructor; simpl; intuition congruence.
Qed.

Lemma sys_inv_step hs s s' : sys_inv s -> sys_step hs s s' -> sys_inv s'.
Proof.
  intros Hinv Hst. inversion Hst as [? ev ? Hfn]; subst.
  destruct ev; [eapply sys_inv_bus | eapply sys_inv_out | eapply sys_inv_in |
                eapply sys_inv_dtr | eapply sys_inv_app]; eassumption.
Qed.

Lemma sys_inv_reachable hs s : reachable hs s -> sys_inv s.
Proof.
  unfold reachable. intros Hr. generalize (sys_inv_boot hs).
  induction Hr as [|x y z Hxy Hyz IH]; eauto using sys_inv_step.
Qed.

(** One OUT completion from an invariant state, computed. *)
Lemma out_step_eq hs s data :
  sys_inv s -> st_out (sys_st s) <> None -> (length data <= 2048)%nat ->
  sys_step_fn hs s (EvOutDone data) =
  Some {| sys_g := set_read_buffer (data ++ drop (length data) (read_buffer (sys_g s))) (sys_g s);
          sys_st := stack_start_read (clear_out (sys_st s)) CDC_OUT_EP ReadBuffer 2048;
          sys_pc := sys_pc s |}.
Proof.
  intros [_ _ _ _ Ho _ Hrb] Hout Hlen.
  destruct Ho as [Ho|Ho]; [done|].
  destruct_sys s. simpl in *. subst out.
  rewrite bool_decide_eq_true_2 by lia.
  rewrite c_memcpy_ok by (simpl; lia). reflexivity.
Qed.

Lemma sys_run_rtc hs s evs s' :
  sys_run hs s evs = Some s' -> rtc (sys_step hs) s s'.
Proof.
  revert s. induction evs as [|ev evs IH]; intros s H; simpl in H.
  - simplify_eq. apply rtc_refl.
  - destruct (sys_step_fn hs s ev) as [s1|] eqn:E; [|done].
    eapply rtc_l; [econstructor; exact E | auto].
Qed.

Lemma reachable_run hs s evs s' :
  reachable hs s -> sys_run hs s evs = Some s' -> reachable hs s'.
Proof. intros Hr Hrun. eapply rtc_trans; [exact Hr | eapply sys_run_rtc; eauto]. Qed.

Lemma reachable_boot_run hs evs s' :
  sys_run hs (sys_boot hs) evs = Some s' -> reachable hs s'.
Proof. apply reachable_run. apply rtc_refl. Qed.

Lemma sending_state_reachable hs : reachable hs (sending_state hs).
Proof.
  apply (reachable_boot_run hs (enumerate ++ [EvSetDtr 0 true] ++ app_call)).
  destruct hs; vm_compute; reflexivity.
Qed.

Lemma configured_state_reachable hs : reachable hs (configured_state hs).
Proof.
  apply (reachable_boot_run hs enumerate).
  destruct hs; vm_compute; reflexivity.
Qed.

#[export] Hint Resolve sending_state_reachable configured_state_reachable : usb.

(** A spinning application with nothing in flight and the flag set. *)
Definition stuck (s : sys_state) : Prop :=
  sys_pc s = SendL213 /\ ep_tx_busy_flag (sys_g s) = true /\ st_in (sys_st s) = None.

Lemma stuck_step hs s s' : stuck s -> sys_step hs s s' -> stuck s'.
Proof.
  intros (Hpc & Hb & Hin) Hst. inversion Hst as [? ev ? H]; subst.
  sys_step_cases s ev H; unfold stuck; cbn; repeat split; congruence.
Qed.

Lemma stuck_forever hs s s' : stuck s -> rtc (sys_step hs) s s' -> stuck s'.
Proof. intros Hs Hr. induction Hr; eauto using stuck_step. Qed.

End LoopFacts.

(** ** Properties of the closed loop *)

Module LoopProps.
Import Stack Loop LoopFacts.

(** C1: In every reachable state, the core never starts a write on
    [CDC_IN_EP] while another is still in flight: the busy flag is a
    single-writer guard for [write_buffer] and the endpoint, whatever the
    interleaving of interrupts and the application's statements. *)
Theorem no_write_while_in_flight hs s :
  reachable hs s -> st_in_overlap (sys_st s) = false.
Proof. intros Hr. apply (inv_no_overlap _ (sys_inv_reachable hs s Hr)). Qed.

Lemma no_write_while_in_flight_witness :
  reachable false (sending_state false) /\
  st_in_overlap (sys_st (sending_state false)) = false.
Proof.
  assert (Hr : reachable false (sending_state false)).
  { apply (reachable_boot_run false (enumerate ++ [EvSetDtr 0 true] ++ app_call)).
    vm_compute. reflexivity. }
  split; [exact Hr | exact (no_write_while_in_flight false _ Hr)].
Defined.

(** C2: In every reachable state, an IN transfer in flight implies that
    [ep_tx_busy_flag] is set, and a set flag implies that the application
    is past line 211 of the send function (about to start the write, or
    spinning). *)
Theorem busy_flag_guards_in_endpoint hs s :
  reachable hs s ->
  (st_in (sys_st s) <> None -> ep_tx_busy_flag (sys_g s) = true) /\
  (ep_tx_busy_flag (sys_g s) = true -> sys_pc s = SendL212 \/ sys_pc s = SendL213).
Proof.
  intros Hr. destruct (sys_inv_reachable hs s Hr). split; assumption.
Qed.

Lemma busy_flag_guards_in_endpoint_witness :
  reachable false (sending_state false) /\
  ep_tx_busy_flag (sys_g (sending_state false)) = true /\
  sys_pc (sending_state false) = SendL213.
Proof.
  assert (Hr : reachable false (sending_state false)).
  { apply (reachable_boot_run false (enumerate ++ [EvSetDtr 0 true] ++ app_call)).
    vm_compute. reflexivity. }
  split; [exact Hr|].
  destruct (busy_flag_guards_in_endpoint false _ Hr) as [Hin Hpc].
  assert (Hb : ep_tx_busy_flag (sys_g (sending_state false)) = true)
    by (apply Hin; vm_compute; discriminate).
  split; [exact Hb|]. destruct (Hpc Hb) as [H|H]; [vm_compute in H; discriminate | exact H].
Defined.

(** C5: In a reachable state with a read armed, an OUT completion of any
    length up to the buffer size (0 included) stores the host's bytes at
    the start of [read_buffer] and re-arms a read of the full 2048 bytes on
    [CDC_OUT_EP], as the last call made to the stack. *)
Theorem out_complete_rearms hs s data :
  reachable hs s -> st_out (sys_st s) <> None -> (length data <= 2048)%nat ->
  exists s', sys_step_fn hs s (EvOutDone data) = Some s' /\
    st_out (sys_st s') = Some (ReadBuffer, 2048) /\
    take (length data) (read_buffer (sys_g s')) = data /\
    list.last (st_calls (sys_st s')) = Some (CallStartRead CDC_OUT_EP ReadBuffer 2048).
Proof.
  intros Hr Hout Hlen.
  rewrite (out_step_eq hs s data (sys_inv_reachable hs s Hr) Hout Hlen).
  eexists; split; [reflexivity|]. simpl.
  split; [done|]. split.
  - by rewrite take_app_length.
  - by rewrite last_snoc.
Qed.

Lemma out_complete_rearms_witness :
  reachable false (configured_state false) /\
  st_out (sys_st (configured_state false)) <> None /\ (length ([] : bytes) <= 2048)%nat /\
  exists s', sys_step_fn false (configured_state false) (EvOutDone []) = Some s' /\
    st_out (sys_st s') = Some (ReadBuffer, 2048) /\
    take 0 (read_buffer (sys_g s')) = [] /\
    list.last (st_calls (sys_st s')) = Some (CallStartRead CDC_OUT_EP ReadBuffer 2048).
Proof.
  assert (Hr : reachable false (configured_state false)).
  { apply (reachable_boot_run false enumerate). vm_compute. reflexivity. }
  assert (Ho : st_out (sys_st (configured_state false)) <> None)
    by (vm_compute; discriminate).
  split; [exact Hr|]. split; [exact Ho|]. split; [simpl; lia|].
  apply (out_complete_rearms false _ [] Hr Ho). simpl. lia.
Defined.

(** C9: When DTR is not asserted, a call of the send function evaluates
    [if (dtr_enable)] and returns: no write is submitted and the globals and
    the stack are unchanged. *)
Theorem send_without_dtr_is_noop hs s :
  sys_pc s = SendIdle -> dtr_enable (sys_g s) = 0 ->
  sys_run hs s [EvApp; EvApp] = Some s.
Proof.
  intros Hpc Hd. destruct_sys s. simpl in *. subst. reflexivity.
Qed.

Lemma send_without_dtr_is_noop_witness :
  sys_pc (configured_state true) = SendIdle /\ dtr_enable (sys_g (configured_state true)) = 0 /\
  sys_run true (configured_state true) [EvApp; EvApp] = Some (configured_state true).
Proof.
  assert (Hp : sys_pc (configured_state true) = SendIdle) by (vm_compute; reflexivity).
  assert (Hd : dtr_enable (sys_g (configured_state true)) = 0) by (vm_compute; reflexivity).
  split; [exact Hp|]. split; [exact Hd|]. exact (send_without_dtr_is_noop true _ Hp Hd).
Defined.

(** C4: A send in progress always finishes when the stack completes
    the IN transfers it was given: from a reachable state where the
    application spins with a transfer in flight, at most two IN completions
    and one statement bring the application back out of the send function,
    with the busy flag cleared and the endpoint idle. *)
Theorem send_completes hs s :
  reachable hs s -> sys_pc s = SendL213 -> st_in (sys_st s) <> None ->
  exists evs s', Forall (fun ev => ev = EvInDone \/ ev = EvApp) evs /\
    (length evs <= 3)%nat /\ sys_run hs s evs = Some s' /\
    sys_pc s' = SendIdle /\ ep_tx_busy_flag (sys_g s') = false /\ st_in (sys_st s') = None.
Proof.
  intros Hr Hpc Hne. destruct (sys_inv_reachable hs s Hr) as [_ Hib _ _ _ Hin _].
  specialize (Hib Hne). destruct_sys s. simpl in *. subst.
  destruct Hin as [?|[->| ->]]; [done| |].
  - exists [EvInDone; EvInDone; EvApp]. destruct hs; eexists; repeat split.
    all: solve [repeat constructor; auto | simpl; lia].
  - exists [EvInDone; EvApp]. destruct hs; eexists; repeat split.
    all: solve [repeat constructor; auto | simpl; lia].
Qed.

Lemma send_completes_witness :
  reachable false (sending_state false) /\ sys_pc (sending_state false) = SendL213 /\
  st_in (sys_st (sending_state false)) <> None /\
  exists evs s', Forall (fun ev => ev = EvInDone \/ ev = EvApp) evs /\
    (length evs <= 3)%nat /\ sys_run false (sending_state false) evs = Some s' /\
    sys_pc s' = SendIdle /\ ep_tx_busy_flag (sys_g s') = false /\ st_in (sys_st s') = None.
Proof.
  assert (Hr : reachable false (sending_state false)).
  { apply (reachable_boot_run false (enumerate ++ [EvSetDtr 0 true] ++ app_call)).
    vm_compute. reflexivity. }
  assert (Hp : sys_pc (sending_state false) = SendL213) by (vm_compute; reflexivity).
  assert (Hi : st_in (sys_st (sending_state false)) <> None) by (vm_compute; discriminate).
  split; [exact Hr|]. split; [exact Hp|]. split; [exact Hi|].
  exact (send_completes false _ Hr Hp Hi).
Defined.

(** C8: A bus reset while the application spins in the send function
    hangs it for good: the reset drops the in-flight IN transfer without a
    completion callback, [usbd_event_handler] does not clear
    [ep_tx_busy_flag], and no later interrupt or statement ever does, so
    every state reachable afterwards still spins with the flag set. *)
Theorem reset_during_send_hangs hs s s1 s' :
  reachable hs s -> sys_pc s = SendL213 -> st_in (sys_st s) <> None ->
  sys_step_fn hs s (EvBus USBD_EVENT_RESET) = Some s1 ->
  rtc (sys_step hs) s1 s' ->
  sys_pc s' = SendL213 /\ ep_tx_busy_flag (sys_g s') = true.
Proof.
  intros Hr Hpc Hne Hreset Hrun.
  destruct (sys_inv_reachable hs s Hr) as [_ Hib _ _ _ _ _].
  specialize (Hib Hne).
  assert (Hs1 : stuck s1).
  { destruct_sys s. simpl in *. simplify_eq/=. repeat split. }
  destruct (stuck_forever hs s1 s' Hs1 Hrun) as (? & ? & _). auto.
Qed.

Lemma reset_during_send_hangs_witness :
  let s1 := default (sending_state false)
              (sys_step_fn false (sending_state false) (EvBus USBD_EVENT_RESET)) in
  reachable false (sending_state false) /\ sys_pc (sending_state false) = SendL213 /\
  st_in (sys_st (sending_state false)) <> None /\
  sys_step_fn false (sending_state false) (EvBus USBD_EVENT_RESET) = Some s1 /\
  rtc (sys_step false) s1 s1 /\
  sys_pc s1 = SendL213 /\ ep_tx_busy_flag (sys_g s1) = true.
Proof.
  intros s1.
  assert (Hr : reachable false (sending_state false)).
  { apply (reachable_boot_run false (enumerate ++ [EvSetDtr 0 true] ++ app_call)).
    vm_compute. reflexivity. }
  assert (Hp : sys_pc (sending_state false) = SendL213) by (vm_compute; reflexivity).
  assert (Hi : st_in (sys_st (sending_state false)) <> None) by (vm_compute; discriminate).
  assert (He : sys_step_fn false (sending_state false) (EvBus USBD_EVENT_RESET) = Some s1)
    by (vm_compute; reflexivity).
  assert (Hrefl : rtc (sys_step false) s1 s1) by apply rtc_refl.
  do 5 (split; [assumption|]).
  exact (reset_during_send_hangs false _ s1 s1 Hr Hp Hi He Hrefl).
Defined.

(** C22: [read_buffer] is re-armed without being copied out and the
    received byte count is only logged: after two OUT completions with no
    consumer in between, the buffer holds the second transfer followed by
    the stale tail of the first, and the globals record nothing else (no
    length) that would tell the two apart. *)
Theorem out_completions_overwrite hs s d1 d2 s1 s2 :
  reachable hs s -> st_out (sys_st s) <> None ->
  (length d2 <= length d1)%nat -> (length d1 <= 2048)%nat ->
  sys_step_fn hs s (EvOutDone d1) = Some s1 ->
  sys_step_fn hs s1 (EvOutDone d2) = Some s2 ->
  read_buffer (sys_g s2) =
    d2 ++ drop (length d2) d1 ++ drop (length d1) (read_buffer (sys_g s)) /\
  sys_g s2 = set_read_buffer (read_buffer (sys_g s2)) (sys_g s).
Proof.
  intros Hr Hout H21 H1 E1 E2.
  pose proof (sys_inv_reachable hs s Hr) as Hinv.
  rewrite (out_step_eq hs s d1 Hinv Hout H1) in E1. injection E1 as <-.
  assert (Hinv1 : sys_inv (Build_sys_state
    (set_read_buffer (d1 ++ drop (length d1) (read_buffer (sys_g s))) (sys_g s))
    (stack_start_read (clear_out (sys_st s)) CDC_OUT_EP ReadBuffer 2048) (sys_pc s))).
  { apply (sys_inv_out hs s d1); [exact Hinv|]. apply out_step_eq; done. }
  rewrite (out_step_eq hs _ d2 Hinv1) in E2 by (simpl; done || lia).
  injection E2 as <-. simpl. rewrite drop_app_le by lia.
  split; [done|]. destruct s as [[] ? ?]. reflexivity.
Qed.

Lemma out_completions_overwrite_witness :
  let s := configured_state false in
  let s1 := default s (sys_step_fn false s (EvOutDone [1; 2; 3])) in
  let s2 := default s1 (sys_step_fn false s1 (EvOutDone [9])) in
  reachable false s /\ st_out (sys_st s) <> None /\
  (length [9%Z] <= length [1%Z; 2%Z; 3%Z])%nat /\ (length [1%Z; 2%Z; 3%Z] <= 2048)%nat /\
  sys_step_fn false s (EvOutDone [1; 2; 3]) = Some s1 /\
  sys_step_fn false s1 (EvOutDone [9]) = Some s2 /\
  read_buffer (sys_g s2) = [9] ++ drop 1 [1; 2; 3] ++ drop 3 (read_buffer (sys_g s)) /\
  sys_g s2 = set_read_buffer (read_buffer (sys_g s2)) (sys_g s).
Proof.
  intros s s1 s2.
  assert (Hr : reachable false s).
  { apply (reachable_boot_run false enumerate). vm_compute. reflexivity. }
  assert (Ho : st_out (sys_st s) <> None) by (vm_compute; discriminate).
  assert (E1 : sys_step_fn false s (EvOutDone [1; 2; 3]) = Some s1) by (vm_compute; reflexivity).
  assert (E2 : sys_step_fn false s1 (EvOutDone [9]) = Some s2) by (vm_compute; reflexivity).
  assert (H21 : (length [9%Z] <= length [1%Z; 2%Z; 3%Z])%nat) by (simpl; lia).
  assert (H1 : (length [1%Z; 2%Z; 3%Z] <= 2048)%nat) by (simpl; lia).
  do 6 (split; [assumption|]).
  exact (out_completions_overwrite false s _ _ s1 s2 Hr Ho H21 H1 E1 E2).
Defined.

End LoopProps.
