(* ===== verification/Session.v ===== *)
(** * The session state machine of the specification, and its refinement

    The specification describes a session state machine (states [Reset],
    [Connected], [Disconnected], [Suspended], [Resumed], [Configured], a
    remote-wakeup flag and the DTR line) whose only observable effect is to
    arm the first OUT read on [onConfigured].  [usb.c] keeps no session
    state: [usbd_event_handler] reacts to [USBD_EVENT_CONFIGURED] only, and
    [usbd_cdc_acm_set_dtr] sets [dtr_enable].  [Module SessionSpec] is the
    abstract machine; [Module SessionRefinement] proves that the code
    issues the same commands to the stack and keeps the same DTR state, for
    every sequence of events. *)

From S2P Require Import Prelude UsbDef Descriptor CdcAcm.
Import ListNotations.
Import Table.

Open Scope Z_scope.

Module SessionSpec.

Inductive session_state :=
| SReset | SConnected | SDisconnected | SSuspended | SResumed | SConfigured.

Record session := {
  sess_state : session_state;
  sess_remote_wakeup : bool;
  sess_dtr : bool
}.

Inductive session_event :=
| OnReset | OnConnected | OnDisconnected | OnSuspend | OnResume | OnConfigured
| OnSetRemoteWakeup | OnClearRemoteWakeup
| OnSetDtr (intf : Z) (asserted : bool).

(** Commands the session issues to the stack. *)
Inductive command := ArmRead (ep : Z) (len : Z).

#[export] Instance command_eq_dec : EqDecision command.
Proof. solve_decision. Defined.

Definition session_init : session :=
  {| sess_state := SReset; sess_remote_wakeup := false; sess_dtr := false |}.

Definition with_state (st : session_state) (s : session) : session :=
  {| sess_state := st; sess_remote_wakeup := sess_remote_wakeup s; sess_dtr := sess_dtr s |}.

Definition session_step (s : session) (e : session_event) : session * list command :=
  match e with
  | OnReset => (with_state SReset s, [])
  | OnConnected => (with_state SConnected s, [])
  | OnDisconnected => (with_state SDisconnected s, [])
  | OnSuspend => (with_state SSuspended s, [])
  | OnResume => (with_state SResumed s, [])
  | OnConfigured => (with_state SConfigured s, [ArmRead CDC_OUT_EP 2048])
  | OnSetRemoteWakeup =>
    ({| sess_state := sess_state s; sess_remote_wakeup := true; sess_dtr := sess_dtr s |}, [])
  | OnClearRemoteWakeup =>
    ({| sess_state := sess_state s; sess_remote_wakeup := false; sess_dtr := sess_dtr s |}, [])
  | OnSetDtr _ b =>
    ({| sess_state := sess_state s; sess_remote_wakeup := sess_remote_wakeup s; sess_dtr := b |}, [])
  end.

Fixpoint session_run (s : session) (evs : list session_event) : session * list command :=
  match evs with
  | [] => (s, [])
  | e :: evs' =>
    let '(s1, c1) := session_step s e in
    let '(s2, c2) := session_run s1 evs' in (s2, c1 ++ c2)
  end.

End SessionSpec.

Module SessionImpl.
Import SessionSpec.

(** How the stack delivers each event to the code. *)
Definition code_handle (g : cdc_globals) (t : list usbd_call) (e : session_event)
    : cdc_globals * list usbd_call :=
  match e with
  | OnReset => usbd_event_handler (usbd_event_code USBD_EVENT_RESET) g t
  | OnConnected => usbd_event_handler (usbd_event_code USBD_EVENT_CONNECTED) g t
  | OnDisconnected => usbd_event_handler (usbd_event_code USBD_EVENT_DISCONNECTED) g t
  | OnSuspend => usbd_event_handler (usbd_event_code USBD_EVENT_SUSPEND) g t
  | OnResume => usbd_event_handler (usbd_event_code USBD_EVENT_RESUME) g t
  | OnConfigured => usbd_event_handler (usbd_event_code USBD_EVENT_CONFIGURED) g t
  | OnSetRemoteWakeup => usbd_event_handler (usbd_event_code USBD_EVENT_SET_REMOTE_WAKEUP) g t
  | OnClearRemoteWakeup => usbd_event_handler (usbd_event_code USBD_EVENT_CLR_REMOTE_WAKEUP) g t
  | OnSetDtr intf b => (usbd_cdc_acm_set_dtr intf b g, t)
  end.

Fixpoint code_run (g : cdc_globals) (t : list usbd_call) (evs : list session_event)
    : cdc_globals * list usbd_call :=
  match evs with
  | [] => (g, t)
  | e :: evs' => let '(g1, t1) := code_handle g t e in code_run g1 t1 evs'
  end.

(** The reads the code arms, as session commands. *)
Definition observe (t : list usbd_call) : list command :=
  omap (fun c => match c with CallStartRead ep _ n => Some (ArmRead ep n) | _ => None end) t.

(** The code's globals represent the session's DTR line. *)
Definition dtr_rel (g : cdc_globals) (s : session) : Prop :=
  (dtr_enable g = 0 \/ dtr_enable g = 1) /\ (dtr_enable g <> 0 <-> sess_dtr s = true).

End SessionImpl.

Module SessionRefinement.
Import SessionSpec SessionImpl.

Lemma observe_app t1 t2 : observe (t1 ++ t2) = observe t1 ++ observe t2.
Proof. apply omap_app. Qed.

Lemma code_handle_refines g s t e :
  dtr_rel g s ->
  dtr_rel (code_handle g t e).1 (session_step s e).1 /\
  observe (code_handle g t e).2 = observe t ++ (session_step s e).2.
Proof.
  intros Hr. destruct e as [| | | | | | | |intf b]; simpl;
    rewrite ?usbd_event_handler_event; simpl;
    rewrite ?observe_app, ?app_nil_r; try (split; [exact Hr | reflexivity]).
  split; [|done].
  unfold dtr_rel. destruct b; simpl; split; try lia; split; intros; try done; lia.
Qed.

(** C7: Refinement of the specification's session machine: for every
    sequence of bus events and DTR requests, the code (which keeps no
    session state) arms exactly the reads the abstract machine commands,
    in the same order, and its [dtr_enable] is non-zero exactly when the
    machine's DTR line is asserted. *)
Theorem code_refines_session evs g s t :
  dtr_rel g s ->
  dtr_rel (code_run g t evs).1 (session_run s evs).1 /\
  observe (code_run g t evs).2 = observe t ++ (session_run s evs).2.
Proof.
  revert g s t. induction evs as [|e evs IH]; intros g s t Hr; simpl.
  - by rewrite app_nil_r.
  - destruct (code_handle_refines g s t e Hr) as [Hr1 Ho1].
    destruct (code_handle g t e) as [g1 t1] eqn:Ec.
    destruct (session_step s e) as [s1 c1] eqn:Es. simpl in *.
    destruct (IH g1 s1 t1 Hr1) as [Hr2 Ho2].
    destruct (code_run g1 t1 evs) as [g2 t2], (session_run s1 evs) as [s2 c2].
    simpl in *. split; [done|]. by rewrite Ho2, Ho1, app_assoc.
Qed.

Lemma code_refines_session_witness :
  dtr_rel cdc_globals_init session_init /\
  observe (code_run cdc_globals_init [] [OnReset; OnConnected; OnConfigured; OnSetDtr 0 true]).2 =
  [ArmRead CDC_OUT_EP 2048].
Proof.
  assert (Hr : dtr_rel cdc_globals_init session_init).
  { cbv [dtr_rel cdc_globals_init dtr_enable_init dtr_enable]. simpl. split; [lia | split; [lia | discriminate]]. }
  split; [exact Hr|].
  destruct (code_refines_session [OnReset; OnConnected; OnConfigured; OnSetDtr 0 true]
              cdc_globals_init session_init [] Hr) as [_ Ho].
  rewrite Ho. reflexivity.
Defined.

End SessionRefinement.
