(* ===== verification/LowLevel.v ===== *)
(** * Low-level bring-up: [usb_dc_low_level_init] and [USB_NVIC_Config]

    Translates lines 218-294 of [usb.c].  The word at [0x40001824] (named
    both [OSC300_CTRL] and [DP_CTRL]) is a 32-bit register updated by the
    read-modify-write macros [_EnPortPullup], [_EnOsc300Ldo], ...; the
    busy-wait [time = 0x4000; while(time--);] is a [uint32_t] loop.  The
    vendor-library calls ([NVIC_Init], [EXTI_*], [RCC_*]) and the [RCC]
    register writes are recorded, in order, in a trace; the numeric values
    of the vendor constants are not in [src/] and are Section variables.
    The [XTALLESS] build switch is the boolean [xtalless]. *)

From S2P Require Import Prelude.
Import ListNotations.

Open Scope Z_scope.

Module Regs.

Definition OSC300_CTRL_ADDR : Z := 0x40001824.
Definition DP_CTRL_ADDR : Z := 0x40001824.

(** [*R = *R | m] and [*R = *R & m] on an [unsigned] register; a
    negative mask is the [int] [~m], converted to [unsigned]. *)
Definition reg_or (r m : Z) : Z := u32 (Z.lor r (u32 m)).
Definition reg_and (r m : Z) : Z := u32 (Z.land r (u32 m)).

Definition _DisOsc300Ldo (r : Z) : Z := reg_or r 0x800000.
Definition _EnOsc300Ldo (r : Z) : Z := reg_and r (Z.lnot 0x800000).
Definition _DisOsc300Core (r : Z) : Z := reg_or r 0x400000.
Definition _EnOsc300Core (r : Z) : Z := reg_and r (Z.lnot 0x400000).
Definition _DisOsc300Ibias (r : Z) : Z := reg_or r 0x1000000.
Definition _EnOsc300Ibias (r : Z) : Z := reg_and r (Z.lnot 0x1000000).
Definition _ClrDPCtrl (r : Z) : Z := reg_and r (Z.lnot 0x8000000).
Definition _EnPortPullup (r : Z) : Z := reg_or r 0x02000000.
Definition _DisPortPullup (r : Z) : Z := reg_and r 0xFDFFFFFF.

(** [while(time --);] with [uint32_t time]: the test reads [time], then it
    is decremented with wrap-around.  Returns the final [time] and the
    number of iterations of the empty body; [None] when the fuel runs out. *)
Fixpoint delay_loop (fuel : nat) (time : Z) (iters : nat) : option (Z * nat) :=
  match fuel with
  | O => None
  | S fuel' =>
    if bool_decide (time = 0) then Some (u32 (time - 1), iters)
    else delay_loop fuel' (u32 (time - 1)) (S iters)
  end.

End Regs.

Module Bringup.
Import Regs.

Inductive irq_channel := USB_LP_IRQn | USBWakeUp_IRQn.

(** Calls of the vendor library and writes of the RCC registers. *)
Inductive drv_call :=
| DrvNvicInit (ch : irq_channel) (prio : Z) (enable : bool)
| DrvExtiClrPend (line : Z)
| DrvExtiInit (line : Z) (interrupt_mode rising enable : bool)
| DrvOscWrite (value : Z)                 (* store to 0x40001824 *)
| DrvApb1PclkEnWrite (value : Z)          (* RCC->APB1PCLKEN *)
| DrvCfg3Write (value : Z)                (* RCC->CFG3 *)
| DrvDelay (iterations : nat)             (* time = 0x4000; while(time--); *)
| DrvRccConfigUsbClk (src : Z)
| DrvRccEnableApb1Usb (enable : bool).

Record periph := {
  osc300_ctrl : Z;         (* the word at 0x40001824 *)
  rcc_apb1pclken : Z;
  rcc_cfg3 : Z;
  drv_log : list drv_call
}.

Section LowLevelInit.
(** Values of vendor and RTOS constants (n32l40x headers, FreeRTOSConfig.h). *)
Variables (configLIBRARY_MAX_SYSCALL_INTERRUPT_PRIORITY EXTI_LINE17 : Z).
Variables (RCC_APB1PCLKEN_AFECEN RCC_UCDR300MSource_MASK RCC_UCDR300M_SRC_OSC300M
           RCC_USBXTALESS_LESSMODE RCC_UCDR_ENABLE RCC_USBCLK_SRC_PLLCLK_DIV1 : Z).
(** [#if defined (XTALLESS) && (XTALLESS == 1)] *)
Variable xtalless : bool.

Definition log (c : drv_call) (p : periph) : periph :=
  {| osc300_ctrl := osc300_ctrl p; rcc_apb1pclken := rcc_apb1pclken p;
     rcc_cfg3 := rcc_cfg3 p; drv_log := drv_log p ++ [c] |}.

Definition write_osc (f : Z -> Z) (p : periph) : periph :=
  let v := f (osc300_ctrl p) in
  {| osc300_ctrl := v; rcc_apb1pclken := rcc_apb1pclken p;
     rcc_cfg3 := rcc_cfg3 p; drv_log := drv_log p ++ [DrvOscWrite v] |}.

Definition write_apb1 (f : Z -> Z) (p : periph) : periph :=
  let v := f (rcc_apb1pclken p) in
  {| osc300_ctrl := osc300_ctrl p; rcc_apb1pclken := v;
     rcc_cfg3 := rcc_cfg3 p; drv_log := drv_log p ++ [DrvApb1PclkEnWrite v] |}.

Definition write_cfg3 (f : Z -> Z) (p : periph) : periph :=
  let v := f (rcc_cfg3 p) in
  {| osc300_ctrl := osc300_ctrl p; rcc_apb1pclken := rcc_apb1pclken p;
     rcc_cfg3 := v; drv_log := drv_log p ++ [DrvCfg3Write v] |}.

(** Iterations of [time = 0x4000; while(time --);]. *)
Definition delay_iterations : nat :=
  match delay_loop (S (Z.to_nat 0x4000)) 0x4000 0 with
  | Some (_, n) => n
  | None => 0
  end.

(** [time = 0x4000; while(time --);]: only the time it takes is observable. *)
Definition delay (p : periph) : periph := log (DrvDelay delay_iterations) p.

(** [USB_NVIC_Config()] *)
Definition USB_NVIC_Config (p : periph) : periph :=
  log (DrvExtiInit EXTI_LINE17 true true true)
    (log (DrvExtiClrPend EXTI_LINE17)
      (log (DrvNvicInit USBWakeUp_IRQn configLIBRARY_MAX_SYSCALL_INTERRUPT_PRIORITY true)
        (log (DrvNvicInit USB_LP_IRQn configLIBRARY_MAX_SYSCALL_INTERRUPT_PRIORITY true) p))).

(** The [XTALLESS] clock bring-up (lines 268-289). *)
Definition xtalless_clock (p : periph) : periph :=
  let p := write_apb1 (fun v => reg_or v RCC_APB1PCLKEN_AFECEN) p in
  let p := write_cfg3 (fun v => reg_and v RCC_UCDR300MSource_MASK) p in
  let p := write_cfg3 (fun v => reg_or v RCC_UCDR300M_SRC_OSC300M) p in
  let p := write_cfg3 (fun v => reg_or v RCC_USBXTALESS_LESSMODE) p in
  let p := delay (write_osc _EnOsc300Ldo p) in
  let p := delay (write_osc _EnOsc300Ibias p) in
  let p := delay (write_osc _EnOsc300Core p) in
  delay (write_cfg3 (fun v => reg_or v RCC_UCDR_ENABLE) p).

(** [usb_dc_low_level_init()] *)
Definition usb_dc_low_level_init (p : periph) : periph :=
  let p := USB_NVIC_Config p in
  let p := write_osc _EnPortPullup p in
  let p := if xtalless then xtalless_clock p
           else log (DrvRccConfigUsbClk RCC_USBCLK_SRC_PLLCLK_DIV1) p in
  log (DrvRccEnableApb1Usb true) p.

End LowLevelInit.

End Bringup.

(** ** Theorems *)

Module RegsFacts.
Import Regs.

Lemma testbit_u32 z i : 0 <= i < 32 -> Z.testbit (u32 z) i = Z.testbit z i.
Proof. intros Hi. unfold u32. apply Z.mod_pow2_bits_low. lia. Qed.

Lemma testbit_reg_or r m i :
  0 <= i < 32 -> Z.testbit (reg_or r m) i = Z.testbit r i || Z.testbit m i.
Proof. intros Hi. unfold reg_or. rewrite testbit_u32, Z.lor_spec, testbit_u32; done. Qed.

Lemma testbit_reg_and r m i :
  0 <= i < 32 -> Z.testbit (reg_and r m) i = Z.testbit r i && Z.testbit m i.
Proof. intros Hi. unfold reg_and. rewrite testbit_u32, Z.land_spec, testbit_u32; done. Qed.

Lemma testbit_pow2 k i : 0 <= k -> 0 <= i -> Z.testbit (2 ^ k) i = (i =? k).
Proof. intros Hk Hi. rewrite Z.pow2_bits_eqb by lia. apply Z.eqb_sym. Qed.

Lemma testbit_lnot_pow2 k i :
  0 <= k -> 0 <= i -> Z.testbit (Z.lnot (2 ^ k)) i = negb (i =? k).
Proof. intros Hk Hi. rewrite Z.lnot_spec, testbit_pow2 by lia. done. Qed.

#[export] Hint Rewrite testbit_reg_or testbit_reg_and using lia : usb_rw.

(** [_EnPortPullup] sets bit 25 of the 32-bit word and [_EnOsc300Ldo],
    [_EnOsc300Ibias], [_EnOsc300Core] clear bits 23, 24 and 22; each leaves
    every other bit unchanged. *)
Lemma pullup_osc_macros_bits r i :
  0 <= i < 32 ->
  Z.testbit (_EnPortPullup r) i = Z.testbit r i || (i =? 25) /\
  Z.testbit (_EnOsc300Ldo r) i = Z.testbit r i && negb (i =? 23) /\
  Z.testbit (_EnOsc300Ibias r) i = Z.testbit r i && negb (i =? 24) /\
  Z.testbit (_EnOsc300Core r) i = Z.testbit r i && negb (i =? 22).
Proof.
  intros Hi. unfold _EnPortPullup, _EnOsc300Ldo, _EnOsc300Ibias, _EnOsc300Core.
  rewrite testbit_reg_or, !testbit_reg_and by done.
  change 0x02000000 with (2 ^ 25). change 0x800000 with (2 ^ 23).
  change 0x1000000 with (2 ^ 24). change 0x400000 with (2 ^ 22).
  rewrite testbit_pow2, !testbit_lnot_pow2 by lia. done.
Qed.

Lemma delay_loop_gen (n : nat) (k : nat) (iters : nat) :
  (Z.of_nat n < 2 ^ 32) ->
  delay_loop (S n + k) (Z.of_nat n) iters = Some (2 ^ 32 - 1, (iters + n)%nat).
Proof.
  revert iters. induction n as [|n IH]; intros iters Hn.
  - simpl. rewrite Nat.add_0_r. reflexivity.
  - cbn [delay_loop Nat.add]. rewrite bool_decide_eq_false_2 by lia.
    replace (u32 (Z.of_nat (S n) - 1)) with (Z.of_nat n)
      by (rewrite u32_id; lia).
    transitivity (Some (2 ^ 32 - 1, (S iters + n)%nat)); [apply IH; lia|].
    do 2 f_equal. lia.
Qed.

(** C19: The busy-wait [while(time --);] on a [uint32_t] terminates for
    every start value [t]: after [t] iterations of the empty body the test
    reads 0 and the final decrement wraps [time] to [0xFFFFFFFF]. *)
Theorem delay_loop_terminates t :
  0 <= t < 2 ^ 32 ->
  delay_loop (S (Z.to_nat t)) t 0 = Some (2 ^ 32 - 1, Z.to_nat t).
Proof.
  intros Ht. rewrite <- (Z2Nat.id t) at 2 by lia.
  rewrite <- (Nat.add_0_r (S (Z.to_nat t))), delay_loop_gen by lia. done.
Qed.

Lemma delay_loop_terminates_witness :
  0 <= 0x4000 < 2 ^ 32 /\
  delay_loop (S (Z.to_nat 0x4000)) 0x4000 0 = Some (2 ^ 32 - 1, Z.to_nat 0x4000).
Proof. split; [lia | apply delay_loop_terminates; lia]. Defined.

End RegsFacts.

Module BringupFacts.
Import Regs RegsFacts Bringup.

Section WithConstants.
Variables (prio line17 afecen src_mask src_osc lessmode ucdr_en pll_div1 : Z).

Lemma delay_iterations_eq : delay_iterations = 16384%nat.
Proof. by_eval. Qed.

(** Unfold one run of the bring-up to its register values and log. *)
Local Ltac unfold_bringup :=
  unfold usb_dc_low_level_init; unfold xtalless_clock; cbv beta zeta; unfold delay;
  cbn [osc300_ctrl rcc_apb1pclken rcc_cfg3 drv_log log write_osc write_apb1 write_cfg3
       USB_NVIC_Config].

(** The shape of the bring-up's log shared by the clients: the interrupt
    set-up, the pull-up write, then a tail that enables the USB clock. *)
Lemma low_level_init_pullup_split xtalless p :
  exists rest : list drv_call,
  drv_log (usb_dc_low_level_init prio line17 afecen src_mask src_osc lessmode ucdr_en
             pll_div1 xtalless p) =
  drv_log p ++
  [DrvNvicInit USB_LP_IRQn prio true; DrvNvicInit USBWakeUp_IRQn prio true;
   DrvExtiClrPend line17; DrvExtiInit line17 true true true;
   DrvOscWrite (_EnPortPullup (osc300_ctrl p))] ++ rest /\
  DrvRccEnableApb1Usb true ∈ rest.
Proof.
  destruct xtalless; unfold_bringup; eexists;
    (split; [rewrite <- !app_assoc; reflexivity | set_solver]).
Qed.

(** C18: [usb_dc_low_level_init] leaves bit 25 (the D+ pull-up) of the
    word at [0x40001824] set in both builds; the [XTALLESS] build also
    clears bits 22-24 (oscillator core, LDO and bias enabled); every other
    bit keeps its value. *)
Theorem low_level_init_osc_bits xtalless p i :
  0 <= i < 32 ->
  Z.testbit (osc300_ctrl (usb_dc_low_level_init prio line17 afecen src_mask src_osc
                            lessmode ucdr_en pll_div1 xtalless p)) i =
  if i =? 25 then true
  else if xtalless && (22 <=? i) && (i <=? 24) then false
  else Z.testbit (osc300_ctrl p) i.
Proof.
  intros Hi. destruct xtalless; unfold_bringup.
  - pose proof (pullup_osc_macros_bits (osc300_ctrl p) i Hi) as (H1 & _).
    destruct (pullup_osc_macros_bits (_EnPortPullup (osc300_ctrl p)) i Hi) as (_ & H2 & _).
    destruct (pullup_osc_macros_bits (_EnOsc300Ldo (_EnPortPullup (osc300_ctrl p))) i Hi)
      as (_ & _ & H3 & _).
    destruct (pullup_osc_macros_bits
                (_EnOsc300Ibias (_EnOsc300Ldo (_EnPortPullup (osc300_ctrl p)))) i Hi)
      as (_ & _ & _ & H4).
    rewrite H4, H3, H2, H1.
    destruct (Z.eqb_spec i 25), (Z.eqb_spec i 22), (Z.eqb_spec i 23), (Z.eqb_spec i 24),
      (Z.leb_spec 22 i), (Z.leb_spec i 24); simpl; rewrite ?andb_true_r, ?orb_false_r;
      try done; try lia.
    all: by rewrite ?orb_true_r.
  - destruct (pullup_osc_macros_bits (osc300_ctrl p) i Hi) as (H1 & _). rewrite H1.
    destruct (Z.eqb_spec i 25); simpl; rewrite ?orb_true_r, ?orb_false_r; done.
Qed.

End WithConstants.

Lemma low_level_init_osc_bits_witness :
  0 <= 25 < 32 /\
  Z.testbit (osc300_ctrl (usb_dc_low_level_init 0 17 0 0 0 0 0 0 true
               {| osc300_ctrl := 0; rcc_apb1pclken := 0; rcc_cfg3 := 0; drv_log := [] |})) 25 =
  true.
Proof.
  split; [lia|].
  rewrite (low_level_init_osc_bits 0 17 0 0 0 0 0 0 true _ 25) by lia. reflexivity.
Defined.


End BringupFacts.
