(* ===== verification/Startup.v ===== *)
(** * Start-up: [cdc_acm_init] on a stack whose [usbd_initialize] brings
      the controller up

    In CherryUSB, [usbd_initialize] calls the port's [usb_dc_init], which
    starts with the board hook [usb_dc_low_level_init] of [usb.c].  This
    file composes [CdcAcm.cdc_acm_init] with [LowLevel.usb_dc_low_level_init]
    through an implementation [boot_api] of the stack interface that keeps
    one ordered log of the calls the core makes and of the bring-up's
    library calls and register writes. *)

From S2P Require Import Prelude UsbDef Descriptor CdcAcm LowLevel.
Import ListNotations.
Import Table Regs Bringup.

Open Scope Z_scope.

Module Boot.

Inductive boot_event :=
| BootCall (c : usbd_call)      (* a call of the core into the stack *)
| BootDrv (c : drv_call).       (* a call or register write of the bring-up *)

Record boot_state := { bs_log : list boot_event; bs_periph : periph }.

Section WithConstants.
Variables (prio line17 afecen src_mask src_osc lessmode ucdr_en pll_div1 : Z).
Variable xtalless : bool.

Definition boot_call (c : usbd_call) (s : boot_state) : boot_state :=
  {| bs_log := bs_log s ++ [BootCall c]; bs_periph := bs_periph s |}.

(** The bring-up run from the current registers, its trace appended. *)
Definition boot_low_level (s : boot_state) : boot_state :=
  let p := bs_periph s in
  let p' := usb_dc_low_level_init prio line17 afecen src_mask src_osc lessmode ucdr_en
              pll_div1 xtalless
              {| osc300_ctrl := osc300_ctrl p; rcc_apb1pclken := rcc_apb1pclken p;
                 rcc_cfg3 := rcc_cfg3 p; drv_log := [] |} in
  {| bs_log := bs_log s ++ map BootDrv (drv_log p'); bs_periph := p' |}.

(** [usbd_initialize]: recorded, then [usb_dc_init] runs the board hook. *)
Definition boot_api : UsbdApi boot_state := {|
  usbd_ep_start_read s ep b n := boot_call (CallStartRead ep b n) s;
  usbd_ep_start_write s ep b n := boot_call (CallStartWrite ep b n) s;
  usbd_desc_register s d := boot_call (CallDescRegister d) s;
  usbd_add_interface s i := boot_call (CallAddInterface i) s;
  usbd_add_endpoint s e := boot_call (CallAddEndpoint e) s;
  usbd_initialize s := boot_low_level (boot_call CallInitialize s)
|}.

End WithConstants.

End Boot.

(** ** Theorems *)

Module BootFacts.
Import Boot RegsFacts BringupFacts.

Section WithConstants.
Variables (prio line17 afecen src_mask src_osc lessmode ucdr_en pll_div1 : Z).
Variable xtalless : bool.

#[local] Instance boot_inst : UsbdApi boot_state :=
  boot_api prio line17 afecen src_mask src_osc lessmode ucdr_en pll_div1 xtalless.

Definition no_osc_write (e : boot_event) : Prop := forall v, e <> BootDrv (DrvOscWrite v).

(** The log of [cdc_acm_init] on the composed stack: the registrations,
    then the bring-up run by [usbd_initialize]. *)
Lemma cdc_acm_init_boot_log hs g st :
  length (write_buffer g) = 2048%nat ->
  exists g' s', cdc_acm_init hs g st = Some (g', s') /\
  bs_log s' = bs_log st ++ map BootCall (cdc_acm_init_calls hs) ++
    map BootDrv (drv_log (usb_dc_low_level_init prio line17 afecen src_mask src_osc
                            lessmode ucdr_en pll_div1 xtalless
                            {| osc300_ctrl := osc300_ctrl (bs_periph st);
                               rcc_apb1pclken := rcc_apb1pclken (bs_periph st);
                               rcc_cfg3 := rcc_cfg3 (bs_periph st); drv_log := [] |})).
Proof.
  intros Hlen. destruct (cdc_acm_init_registers hs g st Hlen) as [g' ->].
  eexists _, _. split; [reflexivity|]. simpl. by rewrite <- !app_assoc.
Qed.

(** C23: Start-up order of the composed firmware: [cdc_acm_init] on a
    2048-byte [write_buffer] registers the descriptor table, both
    interfaces and both endpoints and calls [usbd_initialize] before the
    bring-up writes the word at [0x40001824] for the first time, with the
    D+ pull-up bit 25 set (so the host sees the device only once it is
    fully described), and the USB peripheral clock is enabled only after
    that pull-up write. *)
Theorem pullup_after_registrations hs g st :
  length (write_buffer g) = 2048%nat ->
  exists g' s' pre v post, cdc_acm_init hs g st = Some (g', s') /\
  bs_log s' = bs_log st ++ map BootCall (cdc_acm_init_calls hs) ++ pre ++
    BootDrv (DrvOscWrite v) :: post /\
  Forall no_osc_write pre /\ Z.testbit v 25 = true /\
  BootDrv (DrvRccEnableApb1Usb true) ∈ post.
Proof.
  intros Hlen. destruct (cdc_acm_init_boot_log hs g st Hlen) as (g' & s' & Hi & Hl).
  destruct (low_level_init_pullup_split prio line17 afecen src_mask src_osc lessmode
              ucdr_en pll_div1 xtalless
              {| osc300_ctrl := osc300_ctrl (bs_periph st);
                 rcc_apb1pclken := rcc_apb1pclken (bs_periph st);
                 rcc_cfg3 := rcc_cfg3 (bs_periph st); drv_log := [] |})
    as (rest & Hd & Hin).
  rewrite Hd in Hl.
  exists g', s', (map BootDrv [DrvNvicInit USB_LP_IRQn prio true;
                              DrvNvicInit USBWakeUp_IRQn prio true;
                              DrvExtiClrPend line17; DrvExtiInit line17 true true true]),
    (_EnPortPullup (osc300_ctrl (bs_periph st))), (map BootDrv rest).
  split; [exact Hi|]. split; [exact Hl|].
  split; [repeat constructor; intros v' [=] | split].
  - destruct (pullup_osc_macros_bits (osc300_ctrl (bs_periph st)) 25) as [-> _]; [lia|].
    apply orb_true_r.
  - by apply list_elem_of_fmap_2.
Qed.

End WithConstants.

Lemma pullup_after_registrations_witness :
  length (write_buffer cdc_globals_init) = 2048%nat /\
  exists g' s' pre v post,
  @cdc_acm_init boot_state (boot_api 0 17 0 0 0 0 0 0 false) false cdc_globals_init
    {| bs_log := []; bs_periph := {| osc300_ctrl := 0; rcc_apb1pclken := 0;
                                     rcc_cfg3 := 0; drv_log := [] |} |} = Some (g', s') /\
  bs_log s' = map BootCall (cdc_acm_init_calls false) ++ pre ++
    BootDrv (DrvOscWrite v) :: post /\
  Forall no_osc_write pre /\ Z.testbit v 25 = true /\
  BootDrv (DrvRccEnableApb1Usb true) ∈ post.
Proof.
  split; [reflexivity|].
  apply (pullup_after_registrations 0 17 0 0 0 0 0 0 false false cdc_globals_init
           {| bs_log := []; bs_periph := {| osc300_ctrl := 0; rcc_apb1pclken := 0;
                                            rcc_cfg3 := 0; drv_log := [] |} |}).
  reflexivity.
Defined.

End BootFacts.
