(* ===== verification/Traces.v ===== *)
(** * Properties of whole event sequences of the closed loop

    The theorems of this file are about runs of [System.Loop.sys_step_fn]
    from a reachable state over an arbitrary sequence of events, and about
    the call log the stack keeps:
    - [Module CallLog]: every call the core makes after [cdc_acm_init] is
      a transfer request, so the log of every reachable state is the six
      registrations of [cdc_acm_init] (lines 189-194) followed by
      [usbd_ep_start_read]/[usbd_ep_start_write] calls only; each endpoint
      is registered exactly once, before any transfer (spec section 4.2);
    - [Module Armed]: the OUT endpoint stays armed with the full 2048
      bytes through every event but a bus reset (spec section 4.4: always
      ready to accept host data while configured), and after a bus reset
      nothing re-arms it until the next [USBD_EVENT_CONFIGURED], so no OUT
      completion can happen in between. *)

From S2P Require Import Prelude UsbDef Descriptor CdcAcm System.
Import ListNotations.
Import Table Stack Loop LoopFacts.

Open Scope Z_scope.

Module RunFacts.

(** A property of states that every allowed event preserves holds after
    every run made of allowed events. *)
Lemma run_preserves hs (P : sys_state -> Prop) (Q : sys_event -> Prop) :
  (forall s ev s', P s -> Q ev -> sys_step_fn hs s ev = Some s' -> P s') ->
  forall evs s s', P s -> Forall Q evs -> sys_run hs s evs = Some s' -> P s'.
Proof.
  intros Hstep evs. induction evs as [|ev evs IH]; intros s s' Hp Hq Hrun;
    simpl in Hrun; [by simplify_eq|].
  inversion Hq as [|? ? Hev Hevs]; subst.
  destruct (sys_step_fn hs s ev) as [s1|] eqn:E; [|done]. eauto.
Qed.

(** One step appends only transfer requests to the stack's call log. *)
Lemma step_calls hs s ev s' :
  sys_step_fn hs s ev = Some s' ->
  exists l, st_calls (sys_st s') = st_calls (sys_st s) ++ l /\
            Forall (fun c => is_transfer_call c = true) l.
Proof.
  intros H. sys_step_cases s ev H;
    first [ exists []; by rewrite app_nil_r
          | eexists; split; [reflexivity | repeat constructor] ].
Qed.

End RunFacts.

(** ** The call log *)

Module CallLog.
Import RunFacts.

Lemma calls_reachable hs s :
  reachable hs s ->
  exists rest, st_calls (sys_st s) = cdc_acm_init_calls hs ++ rest /\
               Forall (fun c => is_transfer_call c = true) rest.
Proof.
  unfold reachable. intros Hr. pattern s. revert s Hr. apply rtc_ind_r.
  - exists []. split; [rewrite app_nil_r; destruct hs; by_eval | done].
  - intros s1 s2 _ Hst (rest & Hc & Hf). inversion Hst as [? ev ? Hfn]; subst.
    destruct (step_calls _ _ _ _ Hfn) as (l & Hl & Hfl).
    exists (rest ++ l). rewrite Hl, Hc, app_assoc. split; [done|]. by apply Forall_app.
Qed.

(** No transfer request is a registration of an endpoint. *)
Lemma filter_transfers_nil e rest :
  Forall (fun c => is_transfer_call c = true) rest ->
  filter (fun c => c = CallAddEndpoint e) rest = [].
Proof.
  induction 1 as [|c rest Hc _ IH]; [done|].
  rewrite filter_cons_False; [done|]. intros ->. discriminate.
Qed.

(** C24: In every reachable state the stack's call log is exactly the
    six calls of [cdc_acm_init] (descriptor table, [intf0], [intf1],
    [cdc_out_ep], [cdc_in_ep], [usbd_initialize]) followed by transfer
    requests only; so each of the two bulk endpoints is registered exactly
    once, and before any transfer on it. *)
Theorem registrations_precede_transfers hs s :
  reachable hs s ->
  (exists rest, st_calls (sys_st s) = cdc_acm_init_calls hs ++ rest /\
                Forall (fun c => is_transfer_call c = true) rest) /\
  length (filter (fun c => c = CallAddEndpoint cdc_out_ep) (st_calls (sys_st s))) = 1%nat /\
  length (filter (fun c => c = CallAddEndpoint cdc_in_ep) (st_calls (sys_st s))) = 1%nat.
Proof.
  intros Hr. destruct (calls_reachable hs s Hr) as (rest & Hc & Hf).
  split; [by exists rest|]. rewrite Hc, !list.filter_app, !(filter_transfers_nil _ rest Hf).
  destruct hs; split; by_eval.
Qed.

Lemma registrations_precede_transfers_witness :
  reachable false (sending_state false) /\
  length (filter (fun c => c = CallAddEndpoint cdc_in_ep)
            (st_calls (sys_st (sending_state false)))) = 1%nat.
Proof.
  assert (Hr : reachable false (sending_state false)).
  { apply (reachable_boot_run false (enumerate ++ [EvSetDtr 0 true] ++ app_call)).
    vm_compute. reflexivity. }
  split; [exact Hr | apply (registrations_precede_transfers false _ Hr)].
Defined.

End CallLog.

(** ** The OUT endpoint is armed between bus resets *)

Module Armed.
Import RunFacts.

Lemma armed_step hs s ev s' :
  st_out (sys_st s) = Some (ReadBuffer, 2048) -> ev <> EvBus USBD_EVENT_RESET ->
  sys_step_fn hs s ev = Some s' -> st_out (sys_st s') = Some (ReadBuffer, 2048).
Proof.
  intros Ho Hev H. sys_step_cases s ev H; try done.
  apply bool_decide_eq_true_1 in Er. by subst.
Qed.

Lemma disarmed_step hs s ev s' :
  st_out (sys_st s) = None -> ev <> EvBus USBD_EVENT_CONFIGURED ->
  sys_step_fn hs s ev = Some s' ->
  st_out (sys_st s') = None /\ forall data, ev <> EvOutDone data.
Proof.
  intros Ho Hev H. sys_step_cases s ev H; try (split; [done|]; by intros ? [=]); try congruence.
  all: apply bool_decide_eq_true_1 in Ec; by subst.
Qed.

Lemma reset_step hs s s' :
  sys_step_fn hs s (EvBus USBD_EVENT_RESET) = Some s' -> st_out (sys_st s') = None.
Proof. intros H. cbn in H. by simplify_eq/=. Qed.

(** C25: Once the OUT endpoint is armed in a reachable state, it stays
    armed with the full 2048-byte [read_buffer] through every sequence of
    events without a bus reset: bus events other than RESET (disconnect,
    suspend, resume, a repeated CONFIGURED), OUT and IN completions of any
    size, DTR requests and the application's statements. *)
Theorem out_read_stays_armed hs s evs s' :
  reachable hs s -> st_out (sys_st s) <> None ->
  Forall (fun ev => ev <> EvBus USBD_EVENT_RESET) evs ->
  sys_run hs s evs = Some s' -> st_out (sys_st s') = Some (ReadBuffer, 2048).
Proof.
  intros Hr Hne. apply (run_preserves hs (fun s => st_out (sys_st s) = Some (ReadBuffer, 2048))).
  - intros ? ? ?. apply armed_step.
  - by destruct (inv_out _ (sys_inv_reachable hs s Hr)).
Qed.

Lemma out_read_stays_armed_witness :
  reachable false (configured_state false) /\
  st_out (sys_st (configured_state false)) <> None /\
  Forall (fun ev => ev <> EvBus USBD_EVENT_RESET)
    [EvBus USBD_EVENT_SUSPEND; EvBus USBD_EVENT_RESUME; EvOutDone []; EvBus USBD_EVENT_CONFIGURED] /\
  exists s', sys_run false (configured_state false)
    [EvBus USBD_EVENT_SUSPEND; EvBus USBD_EVENT_RESUME; EvOutDone []; EvBus USBD_EVENT_CONFIGURED] =
    Some s' /\ st_out (sys_st s') = Some (ReadBuffer, 2048).
Proof.
  assert (Hr : reachable false (configured_state false)).
  { apply (reachable_boot_run false enumerate). vm_compute. reflexivity. }
  assert (Hne : st_out (sys_st (configured_state false)) <> None) by (vm_compute; discriminate).
  assert (Hf : Forall (fun ev => ev <> EvBus USBD_EVENT_RESET)
    [EvBus USBD_EVENT_SUSPEND; EvBus USBD_EVENT_RESUME; EvOutDone []; EvBus USBD_EVENT_CONFIGURED])
    by (repeat constructor; discriminate).
  split; [exact Hr | split; [exact Hne | split; [exact Hf|]]].
  eexists. split; [vm_compute; reflexivity|].
  apply (out_read_stays_armed false _ _ _ Hr Hne Hf). vm_compute. reflexivity.
Defined.

(** C26: After a bus reset nothing re-arms the OUT endpoint until the next
    [USBD_EVENT_CONFIGURED]: along every sequence of events without
    CONFIGURED that follows the reset, no read is armed and no OUT
    completion can occur, so host data sent in between is not received. *)
Theorem reset_disarms_out hs s evs s' :
  Forall (fun ev => ev <> EvBus USBD_EVENT_CONFIGURED) evs ->
  sys_run hs s (EvBus USBD_EVENT_RESET :: evs) = Some s' ->
  st_out (sys_st s') = None /\ Forall (fun ev => forall data, ev <> EvOutDone data) evs.
Proof.
  cbn [sys_run]. destruct (sys_step_fn hs s _) as [s1|] eqn:E; [|done].
  apply reset_step in E. revert s1 E.
  induction evs as [|ev evs IH]; intros s1 E Hf H; simpl in H; [by simplify_eq|].
  inversion Hf as [|? ? Hev Hevs]; subst.
  destruct (sys_step_fn hs s1 ev) as [s2|] eqn:E2; [|done].
  destruct (disarmed_step _ _ _ _ E Hev E2) as [E' Hout].
  destruct (IH s2 E' Hevs H) as [? ?]. split; [done|]. by constructor.
Qed.

Lemma reset_disarms_out_witness :
  Forall (fun ev => ev <> EvBus USBD_EVENT_CONFIGURED)
    [EvBus USBD_EVENT_CONNECTED; EvSetDtr 0 true] /\
  exists s', sys_run false (configured_state false)
    [EvBus USBD_EVENT_RESET; EvBus USBD_EVENT_CONNECTED; EvSetDtr 0 true] = Some s' /\
    st_out (sys_st s') = None.
Proof.
  assert (Hf : Forall (fun ev => ev <> EvBus USBD_EVENT_CONFIGURED)
    [EvBus USBD_EVENT_CONNECTED; EvSetDtr 0 true]) by (repeat constructor; discriminate).
  split; [exact Hf|]. eexists. split; [vm_compute; reflexivity|].
  refine (proj1 (reset_disarms_out false (configured_state false) _ _ Hf _)).
  vm_compute. reflexivity.
Defined.

End Armed.
