(* ===== verification/Pump.v ===== *)
(** * The transmit side of the bulk transfer pump against its contract

    Section 4.4 of the specification describes [send()] and the IN
    completion as a contract on [TransmitBusyFlag]: the flag is taken,
    the full 2048-byte buffer is submitted, its completion (a multiple of
    the packet size) is followed by a zero-length packet, and the
    completion of that packet releases the flag.  [Module PumpSpec] states
    this contract as a labelled transition system, with the one way the
    code leaves it: a bus reset drops the transfer in flight and the flag
    is never released ([PumpLost], see [System.LoopProps]).  A transfer
    in flight while the flag is released ([PumpUnguarded]) is outside the
    contract: no step of it leads there.
    [Module PumpRefinement] abstracts the loop's state ([pump_abs]) and
    shows that every step of the loop from a reachable state either leaves
    the abstract state unchanged or is one step of the contract with the
    label of its event; in particular OUT completions, DTR requests and
    bus events other than a reset never touch the transmit side, so a send
    in flight finishes after its two IN completions whatever else
    happens in between. *)

From S2P Require Import Prelude UsbDef Descriptor CdcAcm System.
Import ListNotations.
Import Table Stack Loop LoopFacts.

Open Scope Z_scope.

Module PumpSpec.

Inductive pump_state :=
| PumpIdle       (* flag released, nothing in flight *)
| PumpClaimed    (* flag taken, write not yet submitted *)
| PumpPayload    (* the 2048-byte write in flight *)
| PumpZlp        (* the zero-length packet in flight *)
| PumpLost       (* flag taken, nothing in flight: never released *)
| PumpUnguarded. (* a transfer in flight with the flag released *)

Inductive pump_label := LApp | LInDone | LReset.

Inductive pump_step : pump_state -> pump_label -> pump_state -> Prop :=
| PClaim : pump_step PumpIdle LApp PumpClaimed
| PSubmit : pump_step PumpClaimed LApp PumpPayload
| PPayloadDone : pump_step PumpPayload LInDone PumpZlp
| PZlpDone : pump_step PumpZlp LInDone PumpIdle
| PResetPayload : pump_step PumpPayload LReset PumpLost
| PResetZlp : pump_step PumpZlp LReset PumpLost.

(** The state after [k] IN completions of a send in flight. *)
Definition pump_after (k : nat) : pump_state :=
  match k with O => PumpPayload | S O => PumpZlp | _ => PumpIdle end.

End PumpSpec.

Module PumpRefinement.
Import PumpSpec.

(** The label of an event of the loop, if it may affect the transmit side. *)
Definition pump_label_of (ev : sys_event) : option pump_label :=
  match ev with
  | EvApp => Some LApp
  | EvInDone => Some LInDone
  | EvBus USBD_EVENT_RESET => Some LReset
  | _ => None
  end.

Definition is_in_done (ev : sys_event) : bool :=
  match ev with EvInDone => true | _ => false end.

(** The abstract transmit state of a state of the loop. *)
Definition pump_abs (s : sys_state) : pump_state :=
  match st_in (sys_st s) with
  | Some (WriteBuffer, _) => if ep_tx_busy_flag (sys_g s) then PumpPayload else PumpUnguarded
  | Some _ => if ep_tx_busy_flag (sys_g s) then PumpZlp else PumpUnguarded
  | None =>
    if ep_tx_busy_flag (sys_g s) then
      if bool_decide (sys_pc s = SendL212) then PumpClaimed else PumpLost
    else PumpIdle
  end.

(** ** One step of the loop, by the class of its event *)

Lemma pump_quiet hs s ev s' :
  pump_label_of ev = None -> sys_step_fn hs s ev = Some s' -> pump_abs s' = pump_abs s.
Proof.
  intros Hl H. sys_step_cases s ev H; unfold pump_abs; cbn; try done.
  all: apply bool_decide_eq_true_1 in Er; by subst.
Qed.

Lemma pump_in hs s s' :
  sys_inv s -> sys_step_fn hs s EvInDone = Some s' ->
  pump_step (pump_abs s) LInDone (pump_abs s').
Proof.
  intros [_ Hib _ _ _ Hin _] H. destruct_sys s. simpl in *.
  destruct Hin as [->|[->| ->]]; [done| |];
    destruct hs; simplify_eq/=; unfold pump_abs; simpl; rewrite Hib by done; constructor.
Qed.

Lemma pump_reset hs s s' :
  sys_inv s -> sys_step_fn hs s (EvBus USBD_EVENT_RESET) = Some s' ->
  pump_abs s' = pump_abs s \/ pump_step (pump_abs s) LReset (pump_abs s').
Proof.
  intros [_ Hib _ H212 _ Hin _] H. destruct_sys s. simpl in *. simplify_eq/=.
  unfold pump_abs; simpl.
  destruct Hin as [->|[->| ->]]; [by left| |];
    rewrite Hib by done; rewrite bool_decide_eq_false_2 by naive_solver;
    right; constructor.
Qed.

Lemma pump_app hs s s' :
  sys_inv s -> sys_step_fn hs s EvApp = Some s' ->
  pump_abs s' = pump_abs s \/ pump_step (pump_abs s) LApp (pump_abs s').
Proof.
  intros [_ Hib Hbp H212 _ _ _] H. destruct_sys s. simpl in *.
  unfold pump_abs; simpl.
  destruct pc; simpl in H;
    [| destruct (bool_decide (dtr <> 0)) | | | destruct busy eqn:Eb]; simplify_eq/=;
    try (left; reflexivity).
  - destruct busy; [destruct (Hbp eq_refl) as [[=]|[=]]|].
    destruct inn; [by discriminate (Hib ltac:(done))|]. right; constructor.
  - destruct H212 as [-> ->]; [done|]. right; constructor.
Qed.

(** An IN completion of a send in flight moves it one step on. *)
Lemma pump_after_in k p :
  pump_step (pump_after k) LInDone p -> (k < 2)%nat /\ p = pump_after (S k).
Proof. destruct k as [|[|k]]; inversion 1; split; auto with lia. Qed.

(** C28: Refinement of the transmit contract of the specification: the
    loop starts in [PumpIdle], and from every reachable state each step
    of the loop (bus event, OUT or IN completion, DTR request, statement
    of the application) either leaves the abstract transmit state
    unchanged (never on an IN completion) or is a step of [pump_step]
    labelled by its event: every IN completion is a contract step; the
    application takes the flag then submits the payload, the payload's
    completion submits the zero-length packet, whose completion releases
    the flag, and only a bus reset leads to [PumpLost].  No step ever
    reaches [PumpUnguarded]. *)
Theorem loop_refines_pump hs s ev s' :
  reachable hs s -> sys_step_fn hs s ev = Some s' ->
  pump_abs (sys_boot hs) = PumpIdle /\
  ((pump_abs s' = pump_abs s /\ ev <> EvInDone) \/
   exists l, pump_label_of ev = Some l /\ pump_step (pump_abs s) l (pump_abs s')).
Proof.
  intros Hr H. pose proof (sys_inv_reachable hs s Hr) as Hinv.
  split; [destruct hs; by_eval|].
  destruct ev as [e|data| |intf b|].
  - destruct (decide (e = USBD_EVENT_RESET)) as [->|Hne].
    + destruct (pump_reset hs s s' Hinv H) as [?|?]; [by left | right; by eexists].
    + left. split; [|done]. apply (pump_quiet hs s (EvBus e)); [|done]. by destruct e.
  - left. split; [|done]. by apply (pump_quiet hs s (EvOutDone data)).
  - right. eexists. split; [done|]. by apply (pump_in hs).
  - left. split; [|done]. by apply (pump_quiet hs s (EvSetDtr intf b)).
  - destruct (pump_app hs s s' Hinv H) as [?|?]; [by left | right; by eexists].
Qed.

Lemma loop_refines_pump_witness :
  reachable false (sending_state false) /\
  sys_step_fn false (sending_state false) EvInDone =
    Some (default (sending_state false) (sys_step_fn false (sending_state false) EvInDone)) /\
  pump_abs (sys_boot false) = PumpIdle /\
  ((pump_abs (default (sending_state false) (sys_step_fn false (sending_state false) EvInDone)) =
      pump_abs (sending_state false) /\ EvInDone <> EvInDone) \/
   exists l, pump_label_of EvInDone = Some l /\
     pump_step (pump_abs (sending_state false)) l
       (pump_abs (default (sending_state false)
                    (sys_step_fn false (sending_state false) EvInDone)))).
Proof.
  assert (Hr : reachable false (sending_state false)).
  { apply (reachable_boot_run false (enumerate ++ [EvSetDtr 0 true] ++ app_call)).
    vm_compute. reflexivity. }
  assert (Hs : sys_step_fn false (sending_state false) EvInDone =
    Some (default (sending_state false) (sys_step_fn false (sending_state false) EvInDone)))
    by (vm_compute; reflexivity).
  split; [exact Hr | split; [exact Hs | exact (loop_refines_pump false _ EvInDone _ Hr Hs)]].
Defined.

Lemma pump_label_none ev :
  ev <> EvBus USBD_EVENT_RESET -> ev <> EvApp -> ev <> EvInDone -> pump_label_of ev = None.
Proof. intros. destruct ev as [[]| | | |]; simpl; congruence. Qed.

(** A send [k] completions in: the run of interleaved events goes on. *)
Lemma send_progress hs evs : forall s k s',
  reachable hs s -> (k <= 2)%nat -> pump_abs s = pump_after k ->
  Forall (fun ev => ev <> EvBus USBD_EVENT_RESET /\ ev <> EvApp) evs ->
  sys_run hs s evs = Some s' ->
  (k + length (filter (fun ev => is_in_done ev = true) evs) <= 2)%nat /\
  pump_abs s' = pump_after (k + length (filter (fun ev => is_in_done ev = true) evs)).
Proof.
  induction evs as [|ev evs IH]; intros s k s' Hr Hk Hp Hf H; simpl in H.
  - simplify_eq. simpl. rewrite Nat.add_0_r. done.
  - destruct (sys_step_fn hs s ev) as [s1|] eqn:E; [|done].
    inversion Hf as [|? ? [Hnr Hna] Hfs]; subst.
    assert (Hr1 : reachable hs s1) by (eapply rtc_r; [exact Hr | econstructor; exact E]).
    destruct (is_in_done ev) eqn:Ei.
    + destruct ev; try discriminate Ei. pose proof (pump_in hs s s1 (sys_inv_reachable _ _ Hr) E) as Hst.
      rewrite Hp in Hst. apply pump_after_in in Hst as [Hk1 Hs1].
      rewrite list.filter_cons_True by done. cbn [length].
      rewrite <- Nat.add_succ_comm. apply (IH s1); auto with lia.
    + rewrite list.filter_cons_False by (by rewrite Ei).
      apply (IH s1); auto. rewrite <- Hp. apply (pump_quiet hs s ev); [|done].
      apply pump_label_none; [done | done | by intros ->].
Qed.

(** C29: A send in flight is not disturbed by the interrupts that can
    interleave with it: from a reachable state with the payload in flight,
    along every sequence of events other than a bus reset and the
    application's own statements (OUT completions of any size, DTR
    changes, suspend, resume, a repeated CONFIGURED, IN completions) at
    most two IN completions can occur, and after [k] of them the send is
    at [pump_after k]: payload in flight, zero-length packet in flight,
    or finished with the flag released. *)
Theorem send_survives_interrupts hs s evs s' :
  reachable hs s -> pump_abs s = PumpPayload ->
  Forall (fun ev => ev <> EvBus USBD_EVENT_RESET /\ ev <> EvApp) evs ->
  sys_run hs s evs = Some s' ->
  (length (filter (fun ev => is_in_done ev = true) evs) <= 2)%nat /\
  pump_abs s' = pump_after (length (filter (fun ev => is_in_done ev = true) evs)).
Proof. intros Hr Hp. apply (send_progress hs evs s 0); auto with lia. Qed.

Lemma send_survives_interrupts_witness :
  reachable false (sending_state false) /\
  pump_abs (sending_state false) = PumpPayload /\
  Forall (fun ev => ev <> EvBus USBD_EVENT_RESET /\ ev <> EvApp)
    [EvOutDone [1; 2]; EvSetDtr 0 false; EvInDone; EvBus USBD_EVENT_SUSPEND; EvInDone] /\
  exists s', sys_run false (sending_state false)
    [EvOutDone [1; 2]; EvSetDtr 0 false; EvInDone; EvBus USBD_EVENT_SUSPEND; EvInDone] = Some s' /\
  pump_abs s' = PumpIdle.
Proof.
  assert (Hr : reachable false (sending_state false)).
  { apply (reachable_boot_run false (enumerate ++ [EvSetDtr 0 true] ++ app_call)).
    vm_compute. reflexivity. }
  assert (Hp : pump_abs (sending_state false) = PumpPayload) by (vm_compute; reflexivity).
  assert (Hf : Forall (fun ev => ev <> EvBus USBD_EVENT_RESET /\ ev <> EvApp)
    [EvOutDone [1; 2]; EvSetDtr 0 false; EvInDone; EvBus USBD_EVENT_SUSPEND; EvInDone])
    by (repeat constructor; discriminate).
  assert (Hrun : sys_run false (sending_state false)
    [EvOutDone [1; 2]; EvSetDtr 0 false; EvInDone; EvBus USBD_EVENT_SUSPEND; EvInDone] =
    Some (default (sending_state false) (sys_run false (sending_state false)
      [EvOutDone [1; 2]; EvSetDtr 0 false; EvInDone; EvBus USBD_EVENT_SUSPEND; EvInDone])))
    by (vm_compute; reflexivity).
  split; [exact Hr | split; [exact Hp | split; [exact Hf|]]].
  eexists. split; [exact Hrun|].
  exact (proj2 (send_survives_interrupts false _ _ _ Hr Hp Hf Hrun)).
Defined.

End PumpRefinement.
